(** * AR distance measurement: hit-test manager and measurement helper

    A shallow embedding of the two classes that carry the state of the
    application: [MeasurementHelper] (points, markers and line segments
    registered in a three.js scene) and [HitTestManager] (the WebXR hit-test
    source and the per-frame results), together with the [onSelect] handler
    of the page script that drives them.

    JavaScript numbers are IEEE 754 binary64 values: they are modelled by
    Rocq's primitive floats, whose operations are the same ones. *)

From Corelib Require Import PrimFloat FloatOps SpecFloat.
From Stdlib Require Import List String Ascii ZArith Lia Bool Arith DecimalString
  Permutation.
Import ListNotations.

Set Implicit Arguments.
(* 0.05 is read as the nearest binary64 value, as JavaScript reads it. *)
Set Warnings "-inexact-float,-notation-for-abbreviation".

(** ** The part of three.js the classes rely on *)

Module THREE.

(** [THREE.Vector3]. *)
Record Vector3 : Set := mkVector3 { x : float; y : float; z : float }.

(** [new THREE.Vector3()]. *)
Definition origin : Vector3 := mkVector3 0 0 0.

(** [a.distanceTo(b)]: the square root of [distanceToSquared]. *)
Definition distanceTo (a b : Vector3) : float :=
  let dx := (x a - x b)%float in
  let dy := (y a - y b)%float in
  let dz := (z a - z b)%float in
  sqrt (dx * dx + dy * dy + dz * dz)%float.

(** [new THREE.Vector3().addVectors(a, b)]. *)
Definition addVectors (a b : Vector3) : Vector3 :=
  mkVector3 (x a + x b) (y a + y b) (z a + z b).

(** [v.multiplyScalar(s)]. *)
Definition multiplyScalar (v : Vector3) (s : float) : Vector3 :=
  mkVector3 (x v * s) (y v * s) (z v * s).

(** What a scene child is: one of the three kinds the measurement helper
    builds, or anything else the page put there (the light, the controller). *)
Inductive Primitive : Set :=
| Mesh (position : Vector3)
| Line (point1 point2 : Vector3)
| Sprite (text : string) (position : Vector3)
| Other.

(** [THREE.Object3D]: every object gets the next value of a global counter
    as its [id]; two objects are the same object when their ids agree. *)
Record Object3D : Set := mkObject3D { id : nat; prim : Primitive }.

(** [scene.children]. *)
Definition Scene : Set := list Object3D.

(** [scene.add(object)] for an object that has no parent yet. *)
Definition add (object : Object3D) (scene : Scene) : Scene :=
  scene ++ [object].

(** [scene.remove(object)]: [indexOf] by identity, then [splice]; nothing
    happens when the object is not a child. *)
Fixpoint remove (object : Object3D) (scene : Scene) : Scene :=
  match scene with
  | [] => []
  | child :: rest =>
      if id child =? id object then rest
      else child :: remove object rest
  end.

(** [scene.children.includes(object)]. *)
Definition includes (object : Object3D) (scene : Scene) : bool :=
  existsb (fun child => id child =? id object) scene.

End THREE.

(** ** Number.prototype.toFixed *)

Module JSNumber.

Local Open Scope string_scope.

(** Decimal digits of a non-negative integer ("0" for zero). *)
Definition digits (n : Z) : string :=
  NilZero.string_of_uint (N.to_uint (Z.to_N n)).

Fixpoint zeros (k : nat) : string :=
  match k with
  | O => ""
  | S k' => String "0" (zeros k')
  end.

(** The integer [n] for which [n / 10^f - m * 2^e] is closest to zero, the
    larger one when two are equally close. *)
Definition nearest (m : positive) (e : Z) (f : nat) : Z :=
  let scaled := (Z.pos m * 10 ^ Z.of_nat f)%Z in
  if (0 <=? e)%Z then (scaled * 2 ^ e)%Z
  else let d := (2 ^ (- e))%Z in ((2 * scaled + d) / (2 * d))%Z.

(** Left-pad with zeros up to [f + 1] digits and put the point before the
    last [f] digits. *)
Definition insert_point (f : nat) (m : string) : string :=
  let k := String.length m in
  let m := if (k <=? f)%nat then zeros (f + 1 - k) ++ m else m in
  let k := String.length m in
  if (f =? 0)%nat then m
  else substring 0 (k - f) m ++ "." ++ substring (k - f) f m.

Section ToFixed.

(** [Number::toString], which [toFixed] falls back on for values that are
    not finite or not below 10^21. *)
Variable numberToString : float -> string.

(** [x.toFixed(f)]. *)
Definition toFixed (f : nat) (x : float) : string :=
  match Prim2SF x with
  | S754_nan | S754_infinity _ => numberToString x
  | S754_zero _ => insert_point f "0"
  | S754_finite s m e =>
      let sign := if s then "-" else "" in
      if PrimFloat.leb 1e21 (abs x) then sign ++ numberToString (abs x)
      else sign ++ insert_point f (digits (nearest m e f))
  end.

End ToFixed.

End JSNumber.

(** ** MeasurementHelper *)

Module Measurement.

Import THREE.

(** [array.pop()]: the last element (if any) and the array without it. *)
Definition pop {A : Type} (l : list A) : option A * list A :=
  match rev l with
  | [] => (None, [])
  | last :: front => (Some last, rev front)
  end.

(** The fields of a [MeasurementHelper] that change, with the children of
    the scene it was built on and three.js's object counter. *)
Record MeasurementHelper : Set := mkMeasurementHelper {
  scene : Scene;
  points : list Vector3;
  markers : list Object3D;
  lineSegments : list Object3D;
  object3DId : nat
}.

(** [new MeasurementHelper(scene)]. *)
Definition new (scene0 : Scene) (nextId : nat) : MeasurementHelper :=
  mkMeasurementHelper scene0 [] [] [] nextId.

(** Allocation of a three.js object: it takes the counter's value. *)
Definition alloc (p : Primitive) (h : MeasurementHelper)
  : Object3D * MeasurementHelper :=
  (mkObject3D (object3DId h) p,
   mkMeasurementHelper (scene h) (points h) (markers h) (lineSegments h)
     (S (object3DId h))).

Definition sceneAdd (o : Object3D) (h : MeasurementHelper) : MeasurementHelper :=
  mkMeasurementHelper (add o (scene h)) (points h) (markers h)
    (lineSegments h) (object3DId h).

Definition sceneRemove (o : Object3D) (h : MeasurementHelper) : MeasurementHelper :=
  mkMeasurementHelper (remove o (scene h)) (points h) (markers h)
    (lineSegments h) (object3DId h).

Definition pushPoint (p : Vector3) (h : MeasurementHelper) : MeasurementHelper :=
  mkMeasurementHelper (scene h) (points h ++ [p]) (markers h)
    (lineSegments h) (object3DId h).

Definition pushMarker (o : Object3D) (h : MeasurementHelper) : MeasurementHelper :=
  mkMeasurementHelper (scene h) (points h) (markers h ++ [o])
    (lineSegments h) (object3DId h).

Definition pushLine (o : Object3D) (h : MeasurementHelper) : MeasurementHelper :=
  mkMeasurementHelper (scene h) (points h) (markers h)
    (lineSegments h ++ [o]) (object3DId h).

Section WithNumberToString.

Variable numberToString : float -> string.

(** [createTextLabel(text, position)]: a sprite showing [text], placed at
    [position] and then raised by 0.05 along y; it is added to the scene
    and returned. *)
Definition createTextLabel (text : string) (position : Vector3)
    (h : MeasurementHelper) : Object3D * MeasurementHelper :=
  let spritePosition :=
    mkVector3 (x position) (y position + 0.05) (z position) in
  let (sprite, h) := alloc (Sprite text spritePosition) h in
  (sprite, sceneAdd sprite h).

(** [createLineSegment(point1, point2)]. *)
Definition createLineSegment (point1 point2 : Vector3)
    (h : MeasurementHelper) : float * MeasurementHelper :=
  let (line, h) := alloc (Line point1 point2) h in
  let h := sceneAdd line h in
  let h := pushLine line h in
  let distance := distanceTo point1 point2 in
  let midPoint := multiplyScalar (addVectors point1 point2) 0.5 in
  let (distanceLabel, h) :=
    createTextLabel
      (JSNumber.toFixed numberToString 1 (distance * 100) ++ " cm")%string
      midPoint h in
  (distance, pushMarker distanceLabel h).

(** [addPoint(position)]; the result is [this.points.length]. Inside the
    branch both indices are in range, so the default of [nth] is never
    read. *)
Definition addPoint (position : Vector3) (h : MeasurementHelper)
  : nat * MeasurementHelper :=
  let point := position in
  let h := pushPoint point h in
  let (marker, h) := alloc (Mesh point) h in
  let h := sceneAdd marker h in
  let h := pushMarker marker h in
  let h :=
    if 2 <=? List.length (points h) then
      let lastIndex := List.length (points h) - 1 in
      let p1 := nth (lastIndex - 1) (points h) origin in
      let p2 := nth lastIndex (points h) origin in
      snd (createLineSegment p1 p2 h)
    else h in
  (List.length (points h), h).

(** [clear()]. *)
Definition clear (h : MeasurementHelper) : MeasurementHelper :=
  let h := fold_left (fun h marker => sceneRemove marker h) (markers h) h in
  let h := fold_left (fun h line => sceneRemove line h) (lineSegments h) h in
  mkMeasurementHelper (scene h) [] [] [] (object3DId h).

(** [removeLastMeasurement()]. *)
Definition removeLastMeasurement (h : MeasurementHelper) : MeasurementHelper :=
  if List.length (points h) =? 0 then h
  else
    let h :=
      if 0 <? List.length (markers h) then
        match pop (markers h) with
        | (Some lastMarker, rest) =>
            sceneRemove lastMarker
              (mkMeasurementHelper (scene h) (points h) rest
                 (lineSegments h) (object3DId h))
        | (None, _) => h
        end
      else h in
    let h :=
      if (0 <? List.length (lineSegments h)) && (List.length (points h) mod 2 =? 1) then
        match pop (lineSegments h) with
        | (Some lastLine, rest) =>
            sceneRemove lastLine
              (mkMeasurementHelper (scene h) (points h) (markers h)
                 rest (object3DId h))
        | (None, _) => h
        end
      else h in
    mkMeasurementHelper (scene h) (snd (pop (points h))) (markers h)
      (lineSegments h) (object3DId h).

(** The three operations a caller can apply to a helper. *)
Inductive Op : Set :=
| AddPoint (position : Vector3)
| RemoveLastMeasurement
| Clear.

Definition step (h : MeasurementHelper) (op : Op) : MeasurementHelper :=
  match op with
  | AddPoint position => snd (addPoint position h)
  | RemoveLastMeasurement => removeLastMeasurement h
  | Clear => clear h
  end.

Definition run (ops : list Op) (h : MeasurementHelper) : MeasurementHelper :=
  fold_left step ops h.

End WithNumberToString.

End Measurement.

(** ** HitTestManager *)

Module HitTest.

Import THREE.

Section WebXR.

(** Opaque values of the WebXR device API and of three.js: reference
    spaces, hit-test sources, thrown values, 4x4 matrices and
    quaternions. *)
Variables XRSpace XRHitTestSource Exception Matrix4 Quaternion : Type.

(** three.js's [Matrix4.fromArray], [Vector3.setFromMatrixPosition] and
    [Quaternion.setFromRotationMatrix]. *)
Variable fromArray : list float -> Matrix4.
Variable setFromMatrixPosition : Matrix4 -> Vector3.
Variable setFromRotationMatrix : Matrix4 -> Quaternion.

(** How a call into the platform ends: with a value, or with a thrown
    value (for a promise: fulfilled or rejected at its [await]). *)
Inductive Completion (A : Type) : Type :=
| Normal (value : A)
| Throw (error : Exception).

Arguments Normal {A} value.
Arguments Throw {A} error.

(** What an [XRSession] answers at one call of [requestHitTestSource]. *)
Record XRSession : Type := mkXRSession {
  supportedFeatures : option (list string);
  session_requestReferenceSpace : string -> Completion XRSpace;
  session_requestHitTestSource : XRSpace -> Completion XRHitTestSource
}.

Record XRPose : Type := mkXRPose { transform_matrix : list float }.

Record XRHitTestResult : Type := mkXRHitTestResult {
  getPose : XRSpace -> Completion (option XRPose)
}.

Record XRFrame : Type := mkXRFrame {
  frame_getHitTestResults : XRHitTestSource -> Completion (list XRHitTestResult)
}.

(** The object pushed on [hitResults]. *)
Record HitResult : Type := mkHitResult {
  position : Vector3;
  rotation : Quaternion;
  matrix : Matrix4
}.

Record HitTestManager : Type := mkHitTestManager {
  hitTestSource : option XRHitTestSource;
  hitTestSourceRequested : bool;
  hitMatrix : Matrix4;
  hitResults : list HitResult
}.

(** What the manager does to the outside, in order. *)
Inductive Event : Type :=
| ConsoleWarn (message : string)
| ConsoleError (message : string) (error : Exception)
| RequestReferenceSpace (type : string)
| RequestHitTestSource (space : XRSpace)
| Cancel (source : XRHitTestSource).

(** The manager and the events so far. *)
Definition State : Type := (HitTestManager * list Event)%type.

(** Computations over the state that may throw; the state survives a
    throw. *)
Definition M (A : Type) : Type := State -> Completion A * State.

Definition ret {A} (a : A) : M A := fun s => (Normal a, s).

Definition bind {A B} (m : M A) (f : A -> M B) : M B :=
  fun s =>
    match m s with
    | (Normal a, s') => f a s'
    | (Throw e, s') => (Throw e, s')
    end.

Definition tryCatch {A} (body : M A) (handler : Exception -> M A) : M A :=
  fun s =>
    match body s with
    | (Normal a, s') => (Normal a, s')
    | (Throw e, s') => handler e s'
    end.

Definition await {A} (outcome : Completion A) : M A := fun s => (outcome, s).

Definition emit (ev : Event) : M unit :=
  fun s => (Normal tt, (fst s, snd s ++ [ev])).

Definition this : M HitTestManager := fun s => (Normal (fst s), s).

Definition assign (f : HitTestManager -> HitTestManager) : M unit :=
  fun s => (Normal tt, (f (fst s), snd s)).

Notation "x <- m ;; k" := (bind m (fun x => k))
  (at level 61, m at next level, right associativity).
Notation "m ;;; k" := (bind m (fun _ => k))
  (at level 61, right associativity).

Definition set_hitTestSource (v : option XRHitTestSource) (m : HitTestManager) :=
  mkHitTestManager v (hitTestSourceRequested m) (hitMatrix m) (hitResults m).
Definition set_hitTestSourceRequested (v : bool) (m : HitTestManager) :=
  mkHitTestManager (hitTestSource m) v (hitMatrix m) (hitResults m).
Definition set_hitMatrix (v : Matrix4) (m : HitTestManager) :=
  mkHitTestManager (hitTestSource m) (hitTestSourceRequested m) v (hitResults m).
Definition set_hitResults (v : list HitResult) (m : HitTestManager) :=
  mkHitTestManager (hitTestSource m) (hitTestSourceRequested m) (hitMatrix m) v.

(** [new HitTestManager(renderer)], for a given fresh [Matrix4]. *)
Definition new (identity : Matrix4) : HitTestManager :=
  mkHitTestManager None false identity [].

(** [session.supportedFeatures && session.supportedFeatures.has('hit-test')]. *)
Definition supportsHitTest (session : XRSession) : bool :=
  match supportedFeatures session with
  | None => false
  | Some features => existsb (String.eqb "hit-test") features
  end.

(** [async requestHitTestSource(session, referenceSpace)], run to the
    settlement of its promise. *)
Definition requestHitTestSource (session : XRSession) (referenceSpace : XRSpace)
  : M unit :=
  m <- this ;;
  if hitTestSourceRequested m then ret tt
  else if negb (supportsHitTest session) then
    emit (ConsoleWarn "Hit test not supported by this device or browser")
  else
    tryCatch
      (emit (RequestReferenceSpace "viewer") ;;;
       viewerSpace <- await (session_requestReferenceSpace session "viewer") ;;
       emit (RequestHitTestSource viewerSpace) ;;;
       source <- await (session_requestHitTestSource session viewerSpace) ;;
       assign (set_hitTestSource (Some source)) ;;;
       assign (set_hitTestSourceRequested true))
      (fun error => emit (ConsoleError "Error requesting hit test source:" error)).

(** [getHitTestResults(frame, referenceSpace)]. *)
Definition getHitTestResults (frame : XRFrame) (referenceSpace : XRSpace)
  : M (list HitResult) :=
  assign (set_hitResults []) ;;;
  m <- this ;;
  match hitTestSource m with
  | None => ret (hitResults m)
  | Some source =>
      hitTestResults <- await (frame_getHitTestResults frame source) ;;
      match hitTestResults with
      | hit :: _ =>
          pose <- await (getPose hit referenceSpace) ;;
          match pose with
          | Some pose =>
              assign (set_hitMatrix (fromArray (transform_matrix pose))) ;;;
              assign (fun m =>
                set_hitResults
                  (hitResults m ++
                   [mkHitResult (setFromMatrixPosition (hitMatrix m))
                                (setFromRotationMatrix (hitMatrix m))
                                (hitMatrix m)]) m)
          | None => ret tt
          end
      | [] => ret tt
      end ;;;
      m <- this ;;
      ret (hitResults m)
  end.

(** [dispose()]. *)
Definition dispose : M unit :=
  m <- this ;;
  match hitTestSource m with
  | Some source =>
      emit (Cancel source) ;;;
      assign (set_hitTestSource None)
  | None => ret tt
  end ;;;
  assign (set_hitTestSourceRequested false).

(** How many hit-test sources were asked of the session. *)
Fixpoint acquisitions (events : list Event) : nat :=
  match events with
  | [] => 0
  | RequestHitTestSource _ :: rest => S (acquisitions rest)
  | _ :: rest => acquisitions rest
  end.

End WebXR.

Arguments Normal {Exception A} value.
Arguments Throw {Exception A} error.

End HitTest.

(** ** The page script *)

Module App.

Import THREE.

(** The three captions the measure button takes. *)
Inductive Caption : Set := Measure | Measuring | MeasureAgain.

Section Page.

Variables XRHitTestSource Matrix4 Quaternion : Type.
Variable numberToString : float -> string.

(** The globals [onSelect] and the two button handlers read and write. *)
Record Page : Type := mkPage {
  measuring : bool;
  hitTestManager : HitTest.HitTestManager XRHitTestSource Matrix4 Quaternion;
  measurementHelper : Measurement.MeasurementHelper;
  distanceValue : string;
  measureButtonText : Caption;
  measureButtonDisabled : bool
}.

(** [onSelect(event)]. *)
Definition onSelect (page : Page) : Page :=
  if negb (measuring page) then page
  else
    match HitTest.hitResults (hitTestManager page) with
    | hit :: _ =>
        let (pointCount, helper) :=
          Measurement.addPoint numberToString (HitTest.position hit)
            (measurementHelper page) in
        if pointCount =? 2 then
          let p1 := nth 0 (Measurement.points helper) origin in
          let p2 := nth 1 (Measurement.points helper) origin in
          let distance := (distanceTo p1 p2 * 100)%float in
          mkPage false (hitTestManager page) helper
            (JSNumber.toFixed numberToString 2 distance)
            MeasureAgain false
        else
          mkPage (measuring page) (hitTestManager page) helper
            (distanceValue page) (measureButtonText page)
            (measureButtonDisabled page)
    | [] => page
    end.

(** [startMeasuring()]. *)
Definition startMeasuring (page : Page) : Page :=
  mkPage true (hitTestManager page)
    (Measurement.clear (measurementHelper page))
    (distanceValue page) Measuring true.

(** [resetMeasuring()]. *)
Definition resetMeasuring (page : Page) : Page :=
  mkPage false (hitTestManager page)
    (Measurement.clear (measurementHelper page))
    "0.00" Measure false.

End Page.

End App.

(** ** The session invariant of the specification *)

(** [len(segments) == max(0, len(points) - 1)]. *)
Definition segments_invariant (h : Measurement.MeasurementHelper) : Prop :=
  List.length (Measurement.lineSegments h)
  = Nat.max 0 (List.length (Measurement.points h) - 1).

(** A scene whose objects were all allocated before the counter reached
    [nextId]. *)
Definition allocated_before (nextId : nat) (scene : THREE.Scene) : Prop :=
  Forall (fun o => THREE.id o < nextId) scene.

(** The text [createLineSegment] puts on the label of a segment. *)
Definition labelText (numberToString : float -> string)
    (point1 point2 : THREE.Vector3) : string :=
  (JSNumber.toFixed numberToString 1 (THREE.distanceTo point1 point2 * 100)
   ++ " cm")%string.

(** The midpoint [createLineSegment] computes. *)
Definition midPoint (point1 point2 : THREE.Vector3) : THREE.Vector3 :=
  THREE.multiplyScalar (THREE.addVectors point1 point2) 0.5.

(** Where [createTextLabel] leaves the label of a segment: the midpoint,
    raised by 0.05 along y. *)
Definition labelPosition (point1 point2 : THREE.Vector3) : THREE.Vector3 :=
  THREE.mkVector3 (THREE.x (midPoint point1 point2))
    (THREE.y (midPoint point1 point2) + 0.05)
    (THREE.z (midPoint point1 point2)).

(** The helper after two points were added to a new one. *)
Definition completed (numberToString : float -> string)
    (scene0 : THREE.Scene) (n : nat) (p q : THREE.Vector3)
  : Measurement.MeasurementHelper :=
  snd (Measurement.addPoint numberToString q
         (snd (Measurement.addPoint numberToString p (Measurement.new scene0 n)))).

(** Ownership, for a helper built on [scene0] when the object counter was
    [n0]: the scene is [scene0] followed by objects the helper made, each of
    them once, and each still held in [held] (its markers and line
    segments). *)
Definition owns_at (scene0 : THREE.Scene) (n0 : nat)
    (scene : THREE.Scene) (held : list THREE.Object3D) (nextId : nat) : Prop :=
  n0 <= nextId
  /\ Forall (fun o => n0 <= THREE.id o) held
  /\ exists owned,
       scene = scene0 ++ owned
       /\ NoDup (map THREE.id owned)
       /\ Forall (fun o => THREE.id o < nextId) owned
       /\ incl owned held.

Definition owns (scene0 : THREE.Scene) (n0 : nat)
    (h : Measurement.MeasurementHelper) : Prop :=
  owns_at scene0 n0 (Measurement.scene h)
    (Measurement.markers h ++ Measurement.lineSegments h)
    (Measurement.object3DId h).

(** [scene.remove] of each object of a list, in order. *)
Definition removeEach (objects : list THREE.Object3D) (scene : THREE.Scene)
  : THREE.Scene :=
  fold_left (fun sc o => THREE.remove o sc) objects scene.

(** The text and the position of the label a helper pushed last, if the
    last of its markers is a label. *)
Definition lastLabel (h : Measurement.MeasurementHelper)
  : option (string * THREE.Vector3) :=
  match fst (Measurement.pop (Measurement.markers h)) with
  | Some (THREE.mkObject3D _ (THREE.Sprite text position)) => Some (text, position)
  | _ => None
  end.

(** The fallback used in the examples below, whose inputs are all finite and
    below 10^21, so that [toFixed] never reads it. *)
Definition unusedFallback (_ : float) : string := EmptyString.

(** Two points one unit apart, a third one, and a scene that holds one
    object of the page. *)
Definition pointA : THREE.Vector3 := THREE.mkVector3 0 0 (-1).
Definition pointB : THREE.Vector3 := THREE.mkVector3 0 0 (-2).
Definition pointC : THREE.Vector3 := THREE.mkVector3 0 1 (-2).
Definition pageScene : THREE.Scene := [THREE.mkObject3D 0 THREE.Other].

(** A platform for the examples: spaces are named by strings, sources are
    numbers, thrown values are messages, a matrix is its sixteen elements in
    column-major order (the position is in elements 12 to 14) and the
    rotation is left out. *)
Definition exampleFromArray (elements : list float) : list float := firstn 16 elements.
Definition examplePosition (m : list float) : THREE.Vector3 :=
  THREE.mkVector3 (nth 12 m 0%float) (nth 13 m 0%float) (nth 14 m 0%float).
Definition exampleRotation (_ : list float) : unit := tt.

Definition exampleState (source : option nat) (requested : bool)
  : HitTest.State string nat string (list float) unit :=
  (HitTest.mkHitTestManager source requested [] [], []).

(** A session that supports hit tests and answers both requests. *)
Definition answeringSession : HitTest.XRSession string nat string :=
  HitTest.mkXRSession (Some ["hit-test"%string; "dom-overlay"%string])
    (fun type => HitTest.Normal type) (fun _ => HitTest.Normal 7).

(** A session without the capability. *)
Definition plainSession : HitTest.XRSession string nat string :=
  HitTest.mkXRSession (Some ["dom-overlay"%string])
    (fun type => HitTest.Normal type) (fun _ => HitTest.Normal 7).

(** A session that rejects the request of a hit-test source. *)
Definition rejectingSession : HitTest.XRSession string nat string :=
  HitTest.mkXRSession (Some ["hit-test"%string])
    (fun type => HitTest.Normal type)
    (fun _ => HitTest.Throw "NotSupportedError"%string).

(** The reference space of the page. *)
Definition localSpace : string := "local"%string.

(** The pose of a hit at (0, 0, -1), unrotated. *)
Definition examplePose : HitTest.XRPose :=
  HitTest.mkXRPose [1; 0; 0; 0; 0; 1; 0; 0; 0; 0; 1; 0; 0; 0; -1; 1]%float.

(** Frames reporting no hit, a hit without a pose, and a hit with one. *)
Definition emptyFrame : HitTest.XRFrame string nat string :=
  HitTest.mkXRFrame (fun _ => HitTest.Normal []).
Definition poselessFrame : HitTest.XRFrame string nat string :=
  HitTest.mkXRFrame (fun _ =>
    HitTest.Normal [HitTest.mkXRHitTestResult (fun _ : string => HitTest.Normal (@None HitTest.XRPose))]).
Definition hitFrame : HitTest.XRFrame string nat string :=
  HitTest.mkXRFrame (fun _ =>
    HitTest.Normal [HitTest.mkXRHitTestResult (fun _ : string => HitTest.Normal (Some examplePose))]).

(** Registration, the converse of ownership: the objects a helper holds
    are distinct, were allocated before [nextId], and are all children of
    the scene. *)
Definition registered_at (scene : THREE.Scene) (held : list THREE.Object3D)
    (nextId : nat) : Prop :=
  NoDup (map THREE.id held)
  /\ Forall (fun o => THREE.id o < nextId) held
  /\ incl held scene.

Definition registered (h : Measurement.MeasurementHelper) : Prop :=
  registered_at (Measurement.scene h)
    (Measurement.markers h ++ Measurement.lineSegments h)
    (Measurement.object3DId h).

(** The segments (or labels) [k] calls of [addPoint] add to a helper that
    held [a] points: one per call, but for the first point of all. *)
Definition segmentsAdded (a k : nat) : nat :=
  if a =? 0 then k - 1 else k.

(** ** Sequences of calls on a hit-test manager *)

Section ManagerRuns.

Variables XRSpace XRHitTestSource Exception Matrix4 Quaternion : Type.
Variable fromArray : list float -> Matrix4.
Variable setFromMatrixPosition : Matrix4 -> THREE.Vector3.
Variable setFromRotationMatrix : Matrix4 -> Quaternion.

(** The three methods of a [HitTestManager], with their arguments. *)
Inductive ManagerOp : Type :=
| Request (session : HitTest.XRSession XRSpace XRHitTestSource Exception)
    (referenceSpace : XRSpace)
| Poll (frame : HitTest.XRFrame XRSpace XRHitTestSource Exception)
    (referenceSpace : XRSpace)
| Dispose.

(** One call; the manager and the events stay as the call left them, also
    when it threw. *)
Definition managerStep
    (st : HitTest.State XRSpace XRHitTestSource Exception Matrix4 Quaternion)
    (op : ManagerOp)
  : HitTest.State XRSpace XRHitTestSource Exception Matrix4 Quaternion :=
  match op with
  | Request session referenceSpace =>
      snd (HitTest.requestHitTestSource session referenceSpace st)
  | Poll frame referenceSpace =>
      snd (HitTest.getHitTestResults fromArray setFromMatrixPosition
             setFromRotationMatrix frame referenceSpace st)
  | Dispose => snd (HitTest.dispose st)
  end.

Definition managerRun (ops : list ManagerOp)
    (st : HitTest.State XRSpace XRHitTestSource Exception Matrix4 Quaternion)
  : HitTest.State XRSpace XRHitTestSource Exception Matrix4 Quaternion :=
  fold_left managerStep ops st.

(** How many sources were cancelled. *)
Fixpoint cancellations
    (events : list (HitTest.Event XRSpace XRHitTestSource Exception)) : nat :=
  match events with
  | [] => 0
  | HitTest.Cancel _ _ _ :: rest => S (cancellations rest)
  | _ :: rest => cancellations rest
  end.

(** 1 for a manager that holds a source, 0 otherwise. *)
Definition liveSources
    (m : HitTest.HitTestManager XRHitTestSource Matrix4 Quaternion) : nat :=
  match HitTest.hitTestSource m with
  | Some _ => 1
  | None => 0
  end.

(** What holds of a manager between calls: the flag is set exactly when a
    source is held, at most one hit result is cached, and every source
    cancelled or still held answers to a request made of a session. *)
Definition consistent
    (st : HitTest.State XRSpace XRHitTestSource Exception Matrix4 Quaternion)
  : Prop :=
  (HitTest.hitTestSourceRequested (fst st) = true
   <-> HitTest.hitTestSource (fst st) <> None)
  /\ List.length (HitTest.hitResults (fst st)) <= 1
  /\ cancellations (snd st) + liveSources (fst st) <= HitTest.acquisitions (snd st).

End ManagerRuns.

(** ** Sequences of events on the page *)

Section PageRuns.

Variables XRSpace XRHitTestSource Exception Matrix4 Quaternion : Type.
Variable fromArray : list float -> Matrix4.
Variable setFromMatrixPosition : Matrix4 -> THREE.Vector3.
Variable setFromRotationMatrix : Matrix4 -> Quaternion.
Variable numberToString : float -> string.

(** [render(timestamp, frame)], as far as the page's state goes: with a
    frame the manager's results are refreshed; what [getHitTestResults]
    throws passes through [render]. *)
Definition render
    (frame : option (HitTest.XRFrame XRSpace XRHitTestSource Exception))
    (referenceSpace : XRSpace)
    (page : App.Page XRHitTestSource Matrix4 Quaternion)
  : HitTest.Completion Exception unit * App.Page XRHitTestSource Matrix4 Quaternion :=
  match frame with
  | None => (HitTest.Normal tt, page)
  | Some frame =>
      let r := HitTest.getHitTestResults fromArray setFromMatrixPosition
                 setFromRotationMatrix frame referenceSpace
                 (App.hitTestManager page, []) in
      (match fst r with
       | HitTest.Normal _ => HitTest.Normal tt
       | HitTest.Throw e => HitTest.Throw e
       end,
       App.mkPage (App.measuring page) (fst (snd r)) (App.measurementHelper page)
         (App.distanceValue page) (App.measureButtonText page)
         (App.measureButtonDisabled page))
  end.

(** What happens to the page once the session runs: the two buttons, a
    select of the controller, and a rendered frame. *)
Inductive PageEvent : Type :=
| StartMeasuring
| ResetMeasuring
| Select
| Render (frame : option (HitTest.XRFrame XRSpace XRHitTestSource Exception))
    (referenceSpace : XRSpace).

Definition pageStep (page : App.Page XRHitTestSource Matrix4 Quaternion)
    (event : PageEvent) : App.Page XRHitTestSource Matrix4 Quaternion :=
  match event with
  | StartMeasuring => App.startMeasuring page
  | ResetMeasuring => App.resetMeasuring page
  | Select => App.onSelect numberToString page
  | Render frame referenceSpace => snd (render frame referenceSpace page)
  end.

Definition pageRun (events : list PageEvent)
    (page : App.Page XRHitTestSource Matrix4 Quaternion)
  : App.Page XRHitTestSource Matrix4 Quaternion :=
  fold_left pageStep events page.

(** The page as [initThreeJS] leaves it: not measuring, with a helper built
    on the scene; the manager, the readout and the button are as given. *)
Definition initialPage
    (manager : HitTest.HitTestManager XRHitTestSource Matrix4 Quaternion)
    (scene0 : THREE.Scene) (n0 : nat) (readout : string)
    (caption : App.Caption) (disabled : bool)
  : App.Page XRHitTestSource Matrix4 Quaternion :=
  App.mkPage false manager (Measurement.new scene0 n0) readout caption disabled.

(** What the page keeps of its helper: it is reached from the new helper by
    [addPoint] and [clear] alone, holds at most two points, and at most one
    while a measurement is under way. *)
Definition pageInvariant (scene0 : THREE.Scene) (n0 : nat)
    (page : App.Page XRHitTestSource Matrix4 Quaternion) : Prop :=
  List.length (Measurement.points (App.measurementHelper page)) <= 2
  /\ (App.measuring page = true ->
      List.length (Measurement.points (App.measurementHelper page)) <= 1)
  /\ exists ops,
       Forall (fun op => op <> Measurement.RemoveLastMeasurement) ops
       /\ App.measurementHelper page
          = Measurement.run numberToString ops (Measurement.new scene0 n0).

End PageRuns.

(** ** Starting and ending the session *)

Section Shell.

Variables XRSpace XRHitTestSource Exception Matrix4 Quaternion : Type.

(** What the browser and the renderer answer during one [startAR]:
    [navigator.xr.requestSession], [renderer.xr.getReferenceSpace] and
    [renderer.xr.setSession]. The options of the request and
    [setReferenceSpaceType] leave no trace in the page's state. *)
Record Platform : Type := mkPlatform {
  requestSession : HitTest.Completion Exception
                     (HitTest.XRSession XRSpace XRHitTestSource Exception);
  getReferenceSpace : HitTest.Completion Exception XRSpace;
  setSession : HitTest.Completion Exception unit
}.

(** The page with the globals and elements [startAR] and the session's
    [end] listener touch: the events of the manager, [referenceSpace], the
    start and reset buttons, the message for unsupported devices, the [end]
    listeners registered, whether [render] is the animation loop, and what
    was written to the console by [startAR]. *)
Record Shell : Type := mkShell {
  page : App.Page XRHitTestSource Matrix4 Quaternion;
  managerEvents : list (HitTest.Event XRSpace XRHitTestSource Exception);
  referenceSpace : option XRSpace;
  startARDisabled : bool;
  resetDisabled : bool;
  unsupportedHidden : bool;
  endListeners : nat;
  animationLoop : bool;
  startErrors : list Exception
}.

(** [showUnsupportedMessage()]. *)
Definition showUnsupportedMessage (shell : Shell) : Shell :=
  mkShell (page shell) (managerEvents shell) (referenceSpace shell)
    true (resetDisabled shell) false (endListeners shell)
    (animationLoop shell) (startErrors shell).

(** The [catch] of [startAR]. *)
Definition startFailed (error : Exception) (shell : Shell) : Shell :=
  showUnsupportedMessage
    (mkShell (page shell) (managerEvents shell) (referenceSpace shell)
       (startARDisabled shell) (resetDisabled shell) (unsupportedHidden shell)
       (endListeners shell) (animationLoop shell)
       (startErrors shell ++ [error])).

(** [async startAR()], run to the settlement of its promise. *)
Definition startAR (platform : Platform) (shell : Shell)
  : HitTest.Completion Exception unit * Shell :=
  match requestSession platform with
  | HitTest.Throw error => (HitTest.Normal tt, startFailed error shell)
  | HitTest.Normal session =>
      match getReferenceSpace platform with
      | HitTest.Throw error => (HitTest.Normal tt, startFailed error shell)
      | HitTest.Normal space =>
          let shell :=
            mkShell (page shell) (managerEvents shell) (Some space)
              (startARDisabled shell) (resetDisabled shell)
              (unsupportedHidden shell) (endListeners shell)
              (animationLoop shell) (startErrors shell) in
          match setSession platform with
          | HitTest.Throw error => (HitTest.Normal tt, startFailed error shell)
          | HitTest.Normal _ =>
              let r := HitTest.requestHitTestSource session space
                         (App.hitTestManager (page shell), managerEvents shell) in
              let shell :=
                mkShell
                  (App.mkPage (App.measuring (page shell)) (fst (snd r))
                     (App.measurementHelper (page shell))
                     (App.distanceValue (page shell))
                     (App.measureButtonText (page shell))
                     (App.measureButtonDisabled (page shell)))
                  (snd (snd r)) (referenceSpace shell)
                  (startARDisabled shell) (resetDisabled shell)
                  (unsupportedHidden shell) (endListeners shell)
                  (animationLoop shell) (startErrors shell) in
              match fst r with
              | HitTest.Throw error => (HitTest.Normal tt, startFailed error shell)
              | HitTest.Normal _ =>
                  (HitTest.Normal tt,
                   mkShell
                     (App.mkPage (App.measuring (page shell))
                        (App.hitTestManager (page shell))
                        (App.measurementHelper (page shell))
                        (App.distanceValue (page shell))
                        (App.measureButtonText (page shell)) false)
                     (managerEvents shell) (referenceSpace shell)
                     true false (unsupportedHidden shell)
                     (S (endListeners shell)) true (startErrors shell))
              end
          end
      end
  end.

(** The listener [startAR] registers for the session's [end]. *)
Definition onSessionEnd (shell : Shell) : Shell :=
  let r := HitTest.dispose
             (App.hitTestManager (page shell), managerEvents shell) in
  mkShell
    (App.mkPage (App.measuring (page shell)) (fst (snd r))
       (App.measurementHelper (page shell)) (App.distanceValue (page shell))
       (App.measureButtonText (page shell)) true)
    (snd (snd r)) (referenceSpace shell) false true
    (unsupportedHidden shell) (endListeners shell) (animationLoop shell)
    (startErrors shell).

End Shell.

(** ** PlaneDetector *)

Section PlaneDetection.

(** three.js's quaternions and what [object.rotateX(angle)] makes of one. *)
Variable Quaternion : Type.
Variable rotateX : Quaternion -> float -> Quaternion.

(** The mesh [createPlaneMarker] builds. *)
Record PlaneMarker : Type := mkPlaneMarker {
  plane_id : nat;
  plane_position : THREE.Vector3;
  plane_quaternion : Quaternion;
  plane_scale : THREE.Vector3
}.

(** A child of the scene, seen from the detector: one of its plane markers,
    or an object of the page or of the measurement helper. *)
Inductive Child : Type :=
| PlaneMesh (marker : PlaneMarker)
| Foreign (object : THREE.Object3D).

Definition child_id (child : Child) : nat :=
  match child with
  | PlaneMesh marker => plane_id marker
  | Foreign object => THREE.id object
  end.

(** [scene.remove(marker)]. *)
Fixpoint removeChild (marker : PlaneMarker) (scene : list Child) : list Child :=
  match scene with
  | [] => []
  | child :: rest =>
      if child_id child =? plane_id marker then rest
      else child :: removeChild marker rest
  end.

Record Size : Set := mkSize { width : float; height : float }.

Record PlaneDetector : Type := mkPlaneDetector {
  plane_scene : list Child;
  planeMarkers : list PlaneMarker;
  plane_object3DId : nat
}.

(** [new PlaneDetector(scene)]. *)
Definition newPlaneDetector (scene0 : list Child) (nextId : nat) : PlaneDetector :=
  mkPlaneDetector scene0 [] nextId.

(** [Math.PI]. *)
Definition Math_PI : float := 0x1.921fb54442d18p+1%float.

(** [createPlaneMarker(position, rotation, size = { width: 1, height: 1 })]. *)
Definition createPlaneMarker (position : THREE.Vector3) (rotation : Quaternion)
    (size : option Size) (d : PlaneDetector) : PlaneMarker * PlaneDetector :=
  let size := match size with Some size => size | None => mkSize 1 1 end in
  let marker :=
    mkPlaneMarker (plane_object3DId d) position
      (rotateX rotation (- Math_PI / 2))
      (THREE.mkVector3 (width size) (height size) 1) in
  (marker,
   mkPlaneDetector (plane_scene d ++ [PlaneMesh marker])
     (planeMarkers d ++ [marker]) (S (plane_object3DId d))).

(** [clearPlaneMarkers()]. *)
Definition clearPlaneMarkers (d : PlaneDetector) : PlaneDetector :=
  mkPlaneDetector
    (fold_left (fun scene marker => removeChild marker scene)
       (planeMarkers d) (plane_scene d))
    [] (plane_object3DId d).

Inductive PlaneOp : Type :=
| CreatePlaneMarker (position : THREE.Vector3) (rotation : Quaternion)
    (size : option Size)
| ClearPlaneMarkers.

Definition planeStep (d : PlaneDetector) (op : PlaneOp) : PlaneDetector :=
  match op with
  | CreatePlaneMarker position rotation size =>
      snd (createPlaneMarker position rotation size d)
  | ClearPlaneMarkers => clearPlaneMarkers d
  end.

Definition planeRun (ops : list PlaneOp) (d : PlaneDetector) : PlaneDetector :=
  fold_left planeStep ops d.

End PlaneDetection.

(** More of the platform for the examples: a frame whose query throws, a
    second hit at (0, 0, -2), a manager that holds source 7, pages and
    shells built on [pageScene], and what the browser answers to [startAR]. *)
Definition throwingFrame : HitTest.XRFrame string nat string :=
  HitTest.mkXRFrame (fun _ => HitTest.Throw "InvalidStateError"%string).

Definition secondPose : HitTest.XRPose :=
  HitTest.mkXRPose [1; 0; 0; 0; 0; 1; 0; 0; 0; 0; 1; 0; 0; 0; -2; 1]%float.

Definition secondFrame : HitTest.XRFrame string nat string :=
  HitTest.mkXRFrame (fun _ =>
    HitTest.Normal [HitTest.mkXRHitTestResult (fun _ : string => HitTest.Normal (Some secondPose))]).

Definition readyManager : HitTest.HitTestManager nat (list float) unit :=
  HitTest.mkHitTestManager (Some 7) true [] [].

Definition idleManager : HitTest.HitTestManager nat (list float) unit :=
  HitTest.new nat unit [].

Definition readyPage : App.Page nat (list float) unit :=
  initialPage readyManager pageScene 1 "0.00"%string App.Measure false.

Definition idlePage : App.Page nat (list float) unit :=
  initialPage idleManager pageScene 1 "0.00"%string App.Measure true.

(** A page in the middle of a measurement: one point placed at [pointA], a
    hit at [pointB] cached. *)
Definition halfwayPage : App.Page nat (list float) unit :=
  App.mkPage true
    (HitTest.mkHitTestManager (Some 7) true []
       [HitTest.mkHitResult pointB tt []])
    (snd (Measurement.addPoint unusedFallback pointA (Measurement.new pageScene 1)))
    "0.00"%string App.Measuring true.

Definition idleShell : Shell string nat string (list float) unit :=
  mkShell idlePage [] None false true true 0 false [].

Definition grantingPlatform : Platform string nat string :=
  mkPlatform (HitTest.Normal answeringSession) (HitTest.Normal localSpace)
    (HitTest.Normal tt).

Definition refusingPlatform : Platform string nat string :=
  mkPlatform (HitTest.Throw "NotSupportedError"%string) (HitTest.Normal localSpace)
    (HitTest.Normal tt).

(** A detector whose [rotateX] is left out, on a scene with one object. *)
Definition exampleRotateX (q : unit) (_ : float) : unit := q.
Definition planeScene : list (Child unit) := [Foreign unit (THREE.mkObject3D 0 THREE.Other)].

(** * Properties *)

(** ** Arrays and scenes *)

Lemma pop_snoc (A : Type) (l : list A) (a : A) :
  Measurement.pop (l ++ [a]) = (Some a, l).
Proof.
  unfold Measurement.pop. rewrite rev_app_distr. simpl.
  now rewrite rev_involutive.
Qed.

Lemma remove_app_absent (o : THREE.Object3D) (front back : THREE.Scene) :
  Forall (fun child => THREE.id child <> THREE.id o) front ->
  THREE.remove o (front ++ back) = front ++ THREE.remove o back.
Proof.
  induction 1 as [|child rest Hne _ IH]; simpl.
  - reflexivity.
  - apply Nat.eqb_neq in Hne. now rewrite Hne, IH.
Qed.

Lemma remove_In (o y : THREE.Object3D) (scene : THREE.Scene) :
  In y (THREE.remove o scene) -> In y scene.
Proof.
  induction scene as [|child rest IH]; simpl; [tauto|].
  destruct (THREE.id child =? THREE.id o); simpl; intuition.
Qed.

Lemma remove_id_neq (o y : THREE.Object3D) (scene : THREE.Scene) :
  NoDup (map THREE.id scene) ->
  In y (THREE.remove o scene) -> THREE.id y <> THREE.id o.
Proof.
  induction scene as [|child rest IH]; simpl; [tauto|].
  intros Hnd. inversion Hnd as [|? ? Hnotin Hrest]; subst.
  destruct (THREE.id child =? THREE.id o) eqn:E.
  - apply Nat.eqb_eq in E. intros Hin Heq. apply Hnotin.
    rewrite E, <- Heq. now apply in_map.
  - apply Nat.eqb_neq in E. simpl. intros [<- | Hin]; auto.
Qed.

Lemma remove_NoDup (o : THREE.Object3D) (scene : THREE.Scene) :
  NoDup (map THREE.id scene) -> NoDup (map THREE.id (THREE.remove o scene)).
Proof.
  induction scene as [|child rest IH]; simpl; [auto|].
  intros Hnd. inversion Hnd as [|? ? Hnotin Hrest]; subst.
  destruct (THREE.id child =? THREE.id o); [assumption|].
  simpl. constructor; [|auto].
  intros Hin. apply Hnotin. apply in_map_iff in Hin.
  destruct Hin as (y & Hy & Hin). apply remove_In in Hin.
  rewrite <- Hy. now apply in_map.
Qed.

Lemma remove_Forall (P : THREE.Object3D -> Prop) (o : THREE.Object3D)
    (scene : THREE.Scene) :
  Forall P scene -> Forall P (THREE.remove o scene).
Proof.
  intros H. apply Forall_forall. intros y Hy.
  apply remove_In in Hy. revert y Hy. now apply Forall_forall.
Qed.

Lemma allocated_before_neq (n0 : nat) (o : THREE.Object3D) (scene0 : THREE.Scene) :
  allocated_before n0 scene0 -> n0 <= THREE.id o ->
  Forall (fun child => THREE.id child <> THREE.id o) scene0.
Proof.
  unfold allocated_before. intros H Hle. eapply Forall_impl; [|exact H].
  simpl. intros. lia.
Qed.

Section Ownership.

Variables (scene0 : THREE.Scene) (n0 : nat).
Hypothesis scene0_allocated : allocated_before n0 scene0.

Lemma owns_at_ext (scene : THREE.Scene) (held held' : list THREE.Object3D) (nextId : nat) :
  (forall y, In y held <-> In y held') ->
  owns_at scene0 n0 scene held nextId -> owns_at scene0 n0 scene held' nextId.
Proof.
  intros Hiff (Hle & Hheld & owned & Hsc & Hnd & Hlt & Hincl).
  split; [assumption|]. split.
  - apply Forall_forall. intros y Hy. apply Hiff in Hy.
    revert y Hy. now apply Forall_forall.
  - exists owned. repeat split; auto. intros y Hy. apply Hiff. now apply Hincl.
Qed.

Lemma owns_at_add (scene : THREE.Scene) (held : list THREE.Object3D)
    (nextId : nat) (p : THREE.Primitive) :
  owns_at scene0 n0 scene held nextId ->
  owns_at scene0 n0 (scene ++ [THREE.mkObject3D nextId p])
    (THREE.mkObject3D nextId p :: held) (S nextId).
Proof.
  intros (Hle & Hheld & owned & Hsc & Hnd & Hlt & Hincl).
  split; [lia|]. split; [constructor; [simpl; lia | assumption]|].
  exists (owned ++ [THREE.mkObject3D nextId p]). repeat split.
  - now rewrite Hsc, app_assoc.
  - rewrite map_app. simpl. apply NoDup_app; [assumption | repeat constructor; auto |].
    intros i Hi [<- | []]. apply in_map_iff in Hi. destruct Hi as (y & Hy & Hin).
    rewrite Forall_forall in Hlt. specialize (Hlt y Hin). lia.
  - apply Forall_app. split.
    + eapply Forall_impl; [|exact Hlt]. simpl. intros. lia.
    + repeat constructor.
  - intros y Hy. apply in_app_or in Hy. destruct Hy as [Hy | [<- | []]].
    + right. now apply Hincl.
    + now left.
Qed.

Lemma owns_at_remove (scene : THREE.Scene) (held held' : list THREE.Object3D)
    (nextId : nat) (o : THREE.Object3D) :
  owns_at scene0 n0 scene held nextId ->
  In o held ->
  (forall y, In y held -> In y held' \/ y = o) ->
  incl held' held ->
  owns_at scene0 n0 (THREE.remove o scene) held' nextId.
Proof.
  intros (Hle & Hheld & owned & Hsc & Hnd & Hlt & Hincl) Ho Hcover Hsub.
  assert (Hid : n0 <= THREE.id o)
    by (rewrite Forall_forall in Hheld; now apply Hheld).
  split; [assumption|]. split.
  - apply Forall_forall. intros y Hy. apply Hsub in Hy.
    revert y Hy. now apply Forall_forall.
  - exists (THREE.remove o owned). repeat split.
    + rewrite Hsc. apply remove_app_absent.
      now apply allocated_before_neq with (n0 := n0).
    + now apply remove_NoDup.
    + now apply remove_Forall.
    + intros y Hy. pose proof (remove_id_neq _ _ _ Hnd Hy) as Hneq.
      apply remove_In in Hy. destruct (Hcover y (Hincl y Hy)) as [H | ->]; [assumption|].
      now destruct Hneq.
Qed.

Lemma removeEach_app_absent (objects : list THREE.Object3D) (owned : THREE.Scene) :
  Forall (fun o => n0 <= THREE.id o) objects ->
  removeEach objects (scene0 ++ owned) = scene0 ++ removeEach objects owned.
Proof.
  unfold removeEach. revert owned.
  induction objects as [|o rest IH]; intros owned Hall; simpl; [reflexivity|].
  inversion Hall; subst.
  rewrite remove_app_absent by now apply allocated_before_neq with (n0 := n0).
  now apply IH.
Qed.

Lemma removeEach_all (objects : list THREE.Object3D) (owned : THREE.Scene) :
  NoDup (map THREE.id owned) ->
  incl owned objects ->
  removeEach objects owned = [].
Proof.
  unfold removeEach. revert owned.
  induction objects as [|o rest IH]; intros owned Hnd Hincl; simpl.
  - destruct owned as [|y ?]; [reflexivity|]. destruct (Hincl y); now left.
  - apply IH; [now apply remove_NoDup|].
    intros y Hy. pose proof (remove_id_neq _ _ _ Hnd Hy) as Hneq.
    apply remove_In in Hy. destruct (Hincl y Hy) as [<- | H]; [now destruct Hneq | assumption].
Qed.

End Ownership.

Section MeasurementFacts.

Import THREE Measurement.

Variable numberToString : float -> string.

Local Notation addPoint := (Measurement.addPoint numberToString).
Local Notation createLineSegment := (Measurement.createLineSegment numberToString).
Local Notation run := (Measurement.run numberToString).
Local Notation step := (Measurement.step numberToString).
Local Notation label_text := (labelText numberToString).
Local Notation completed_helper := (completed numberToString).

(** What one [addPoint] does, by whether a point was there before. *)
Lemma addPoint_unfold (position : Vector3) (h : MeasurementHelper) :
  addPoint position h =
  let marker := mkObject3D (object3DId h) (Mesh position) in
  match rev (points h) with
  | [] =>
      (1, mkMeasurementHelper (scene h ++ [marker]) [position]
            (markers h ++ [marker]) (lineSegments h) (S (object3DId h)))
  | previous :: _ =>
      let line := mkObject3D (S (object3DId h)) (Line previous position) in
      let label :=
        mkObject3D (S (S (object3DId h)))
          (Sprite (label_text previous position) (labelPosition previous position)) in
      (S (List.length (points h)),
       mkMeasurementHelper (scene h ++ [marker; line; label])
         (points h ++ [position]) (markers h ++ [marker; label])
         (lineSegments h ++ [line]) (S (S (S (object3DId h)))))
  end.
Proof.
  destruct h as [sc ps ms ls n]. simpl.
  destruct ps as [|previous front _] using rev_ind.
  - reflexivity.
  - rewrite rev_app_distr. simpl rev. cbv iota beta.
    unfold Measurement.addPoint.
    cbn [pushPoint alloc sceneAdd pushMarker points scene markers
         lineSegments object3DId].
    assert (Hlen : List.length ((front ++ [previous]) ++ [position])
                   = S (S (List.length front)))
      by (rewrite !length_app; simpl; lia).
    rewrite Hlen.
    change (2 <=? S (S (List.length front))) with true. cbv iota.
    replace (S (S (List.length front)) - 1 - 1) with (List.length front) by lia.
    replace (S (S (List.length front)) - 1) with (List.length (front ++ [previous]))
      by (rewrite length_app; simpl; lia).
    rewrite (app_nth1 (front ++ [previous]) [position])
      by (rewrite length_app; simpl; lia).
    rewrite nth_middle.
    change [position] with (position :: []).
    rewrite (nth_middle (front ++ [previous]) [] position origin).
    unfold Measurement.createLineSegment, Measurement.createTextLabel.
    cbn [pushPoint alloc sceneAdd pushMarker pushLine points scene markers
         lineSegments object3DId fst snd].
    unfold add. rewrite <- !app_assoc.
    cbn [app].
    unfold pushMarker, sceneAdd, add.
    cbn [scene points markers lineSegments object3DId].
    rewrite <- !app_assoc. cbn [app].
    apply f_equal2; [rewrite !length_app; simpl; lia | reflexivity].
Qed.

(** C4: from the empty session the first [addPoint] creates one marker,
    appends the point, creates no segment and returns 1; the second appends
    its point, creates one marker and one segment (a line and its label)
    and returns 2, so that there is exactly one line segment after two
    calls. *)
Theorem addPoint_first_two (scene0 : Scene) (n : nat) (p q : Vector3) :
  let r1 := addPoint p (Measurement.new scene0 n) in
  let r2 := addPoint q (snd r1) in
  let m1 := mkObject3D n (Mesh p) in
  let m2 := mkObject3D (n + 1) (Mesh q) in
  let line := mkObject3D (n + 2) (Line p q) in
  let label := mkObject3D (n + 3) (Sprite (label_text p q) (labelPosition p q)) in
  (fst r1 = 1 /\ points (snd r1) = [p] /\ markers (snd r1) = [m1]
   /\ lineSegments (snd r1) = [] /\ scene (snd r1) = scene0 ++ [m1])
  /\ (fst r2 = 2 /\ points (snd r2) = [p; q]
      /\ markers (snd r2) = [m1; m2; label]
      /\ lineSegments (snd r2) = [line]
      /\ scene (snd r2) = scene0 ++ [m1; m2; line; label]
      /\ List.length (lineSegments (snd r2)) = 1).
Proof.
  intros r1 r2 m1 m2 line label.
  subst r1 r2 m1 m2 line label. cbn -[JSNumber.toFixed distanceTo PrimFloat.add PrimFloat.mul].
  replace (n + 1) with (S n) by lia.
  replace (n + 2) with (S (S n)) by lia.
  replace (n + 3) with (S (S (S n))) by lia.
  unfold add. rewrite <- !app_assoc. simpl.
  repeat split.
Qed.

Lemma rev_cons_last (A : Type) (l : list A) (a d : A) (rest : list A) :
  rev l = a :: rest -> last l d = a.
Proof.
  intros H. apply (f_equal (@rev A)) in H. rewrite rev_involutive in H.
  subst l. simpl. apply last_last.
Qed.

(** C1: from the completed state (two points, one line segment) the first
    [removeLastMeasurement] pops the label, keeps the second marker and the
    line segment, and drops the second point; the second call pops the second
    marker and the line segment and drops the first point, leaving the first
    marker behind. *)
Theorem removeLastMeasurement_after_complete (scene0 : Scene) (n : nat) (p q : Vector3) :
  let m1 := mkObject3D n (Mesh p) in
  let m2 := mkObject3D (S n) (Mesh q) in
  let line := mkObject3D (S (S n)) (Line p q) in
  let once := removeLastMeasurement (completed_helper scene0 n p q) in
  let twice := removeLastMeasurement once in
  (points once = [p] /\ lineSegments once = [line] /\ markers once = [m1; m2])
  /\ (points twice = [] /\ lineSegments twice = [] /\ markers twice = [m1]).
Proof.
  intros m1 m2 line once twice. subst once twice m1 m2 line.
  unfold completed. rewrite !addPoint_unfold.
  cbn -[JSNumber.toFixed distanceTo labelPosition remove].
  repeat split.
Qed.

(** C2: the invariant [len(segments) == max(0, len(points) - 1)] does not
    survive [removeLastMeasurement]: after two [addPoint] calls and one undo
    the helper holds one point and still one line segment. *)
Theorem removeLastMeasurement_breaks_invariant (scene0 : Scene) (n : nat) (p q : Vector3) :
  let h := run [AddPoint p; AddPoint q; RemoveLastMeasurement]
             (Measurement.new scene0 n) in
  List.length (points h) = 1 /\ List.length (lineSegments h) = 1
  /\ ~ segments_invariant h.
Proof.
  intros h. subst h. unfold Measurement.run, segments_invariant.
  cbn [fold_left Measurement.step]. rewrite !addPoint_unfold.
  cbn -[JSNumber.toFixed distanceTo labelPosition remove].
  repeat split. discriminate.
Qed.

(** [addPoint] and [clear] alone keep the invariant. *)
Lemma segments_invariant_addPoint (position : Vector3) (h : MeasurementHelper) :
  segments_invariant h -> segments_invariant (snd (addPoint position h)).
Proof.
  unfold segments_invariant. intros H. rewrite addPoint_unfold.
  destruct (points h) as [|previous front _] using rev_ind.
  - simpl in *. destruct (lineSegments h); [reflexivity | discriminate].
  - rewrite rev_app_distr. cbn [rev app snd points lineSegments].
    rewrite !length_app in *. simpl in *. lia.
Qed.

Lemma segments_invariant_clear (h : MeasurementHelper) :
  segments_invariant (clear h).
Proof. reflexivity. Qed.

(** Sequences of operations without an undo. *)
Lemma segments_invariant_without_undo (ops : list Op) (h : MeasurementHelper) :
  Forall (fun op => op <> RemoveLastMeasurement) ops ->
  segments_invariant h -> segments_invariant (run ops h).
Proof.
  unfold Measurement.run. intros Hops. revert h.
  induction Hops as [|op rest Hop _ IH]; intros h H; simpl; [assumption|].
  apply IH. destruct op; simpl.
  - now apply segments_invariant_addPoint.
  - now destruct Hop.
  - apply segments_invariant_clear.
Qed.

(** C3: after the second [addPoint] the markers are the two point markers
    followed by the label sprite, so the next [removeLastMeasurement] pops
    the label and takes it, not the second point's marker, out of the scene. *)
Theorem label_is_last_marker (scene0 : Scene) (n : nat) (p q : Vector3) :
  allocated_before n scene0 ->
  let m1 := mkObject3D n (Mesh p) in
  let m2 := mkObject3D (n + 1) (Mesh q) in
  let line := mkObject3D (n + 2) (Line p q) in
  let label := mkObject3D (n + 3) (Sprite (label_text p q) (labelPosition p q)) in
  let h := completed_helper scene0 n p q in
  markers h = [m1; m2; label]
  /\ pop (markers h) = (Some label, [m1; m2])
  /\ scene h = scene0 ++ [m1; m2; line; label]
  /\ markers (removeLastMeasurement h) = [m1; m2]
  /\ scene (removeLastMeasurement h) = scene0 ++ [m1; m2; line].
Proof.
  intros Hfresh m1 m2 line label h. subst h m1 m2 line label.
  replace (n + 1) with (S n) by lia.
  replace (n + 2) with (S (S n)) by lia.
  replace (n + 3) with (S (S (S n))) by lia.
  unfold completed. rewrite !addPoint_unfold.
  cbn -[JSNumber.toFixed distanceTo labelPosition remove].
  rewrite <- !app_assoc. cbn [app].
  repeat split.
  rewrite remove_app_absent.
  - simpl. rewrite !(proj2 (Nat.eqb_neq _ _)) by lia.
    now rewrite Nat.eqb_refl.
  - apply allocated_before_neq with (n0 := n); [assumption | simpl; lia].
Qed.

(** What [addPoint] does once a point is there: used for any count, and in
    particular from two points on. *)
Lemma addPoint_with_previous (position : Vector3) (h : MeasurementHelper) :
  1 <= List.length (points h) ->
  let previous := last (points h) origin in
  let marker := mkObject3D (object3DId h) (Mesh position) in
  let line := mkObject3D (S (object3DId h)) (Line previous position) in
  let label :=
    mkObject3D (S (S (object3DId h)))
      (Sprite (label_text previous position) (labelPosition previous position)) in
  addPoint position h =
  (S (List.length (points h)),
   mkMeasurementHelper (scene h ++ [marker; line; label])
     (points h ++ [position]) (markers h ++ [marker; label])
     (lineSegments h ++ [line]) (S (S (S (object3DId h))))).
Proof.
  intros Hlen. rewrite addPoint_unfold.
  destruct (rev (points h)) as [|previous rest] eqn:Hrev.
  - apply (f_equal (@List.length _)) in Hrev. rewrite length_rev in Hrev.
    simpl in Hrev. lia.
  - cbv zeta. now rewrite (rev_cons_last _ origin Hrev).
Qed.

(** *** Ownership along the operations *)

Lemma length_snoc_pos (A : Type) (l : list A) (a : A) :
  (0 <? List.length (l ++ [a])) = true.
Proof. apply Nat.ltb_lt. rewrite length_app. simpl. lia. Qed.

Lemma owns_new (scene0 : Scene) (n0 : nat) :
  owns scene0 n0 (Measurement.new scene0 n0).
Proof.
  split; [reflexivity|]. split; [constructor|].
  exists []. simpl. rewrite app_nil_r. repeat split; try constructor.
  intros y [].
Qed.

Lemma owns_addPoint (scene0 : Scene) (n0 : nat) (position : Vector3)
    (h : MeasurementHelper) :
  owns scene0 n0 h -> owns scene0 n0 (snd (addPoint position h)).
Proof.
  unfold owns. intros H. rewrite addPoint_unfold.
  destruct (rev (points h)) as [|previous rest]; cbn [snd scene markers lineSegments object3DId].
  - eapply owns_at_ext; [|apply owns_at_add; exact H].
    intros y. simpl. rewrite !in_app_iff. simpl. tauto.
  - change (scene h ++ [?a; ?b; ?c]) with (scene h ++ [a] ++ [b] ++ [c]).
    rewrite !app_assoc.
    eapply owns_at_ext; [|apply owns_at_add, owns_at_add, owns_at_add; exact H].
    intros y. simpl. rewrite !in_app_iff. simpl. tauto.
Qed.

Lemma owns_dropMarker (scene0 : Scene) (n0 : nat) (sc : Scene)
    (ps ps' : list Vector3) (ms ls : list Object3D) (m : Object3D) (nx : nat) :
  allocated_before n0 scene0 ->
  owns scene0 n0 (mkMeasurementHelper sc ps (ms ++ [m]) ls nx) ->
  owns scene0 n0 (mkMeasurementHelper (remove m sc) ps' ms ls nx).
Proof.
  unfold owns. simpl. intros Hfresh H.
  eapply owns_at_remove; [exact Hfresh | exact H | | |].
  - rewrite !in_app_iff. simpl. auto.
  - intros y. rewrite !in_app_iff. simpl. intuition.
  - intros y. rewrite !in_app_iff. simpl. intuition.
Qed.

Lemma owns_dropLine (scene0 : Scene) (n0 : nat) (sc : Scene)
    (ps ps' : list Vector3) (ms ls : list Object3D) (l : Object3D) (nx : nat) :
  allocated_before n0 scene0 ->
  owns scene0 n0 (mkMeasurementHelper sc ps ms (ls ++ [l]) nx) ->
  owns scene0 n0 (mkMeasurementHelper (remove l sc) ps' ms ls nx).
Proof.
  unfold owns. simpl. intros Hfresh H.
  eapply owns_at_remove; [exact Hfresh | exact H | | |].
  - rewrite !in_app_iff. simpl. auto.
  - intros y. rewrite !in_app_iff. simpl. intuition.
  - intros y. rewrite !in_app_iff. simpl. intuition.
Qed.

Lemma owns_removeLastMeasurement (scene0 : Scene) (n0 : nat) (h : MeasurementHelper) :
  allocated_before n0 scene0 ->
  owns scene0 n0 h -> owns scene0 n0 (removeLastMeasurement h).
Proof.
  intros Hfresh H. destruct h as [sc ps ms ls nx].
  unfold removeLastMeasurement. cbn [points markers lineSegments scene object3DId].
  destruct (List.length ps =? 0); [assumption|].
  destruct ms as [|m ms _] using rev_ind.
  - change (0 <? List.length (@nil Object3D)) with false. cbv iota.
    cbn [points markers lineSegments scene object3DId].
    destruct ls as [|l ls _] using rev_ind.
    + exact H.
    + rewrite length_snoc_pos. cbn [andb].
      destruct (List.length ps mod 2 =? 1); [|exact H].
      rewrite pop_snoc. cbn [sceneRemove points markers lineSegments scene object3DId].
      now apply owns_dropLine with (ps := ps).
  - rewrite length_snoc_pos, pop_snoc.
    cbn [sceneRemove points markers lineSegments scene object3DId].
    apply owns_dropMarker with (ps' := ps) in H; [|assumption].
    destruct ls as [|l ls _] using rev_ind.
    + exact H.
    + rewrite length_snoc_pos. cbn [andb].
      destruct (List.length ps mod 2 =? 1); [|exact H].
      rewrite pop_snoc. cbn [sceneRemove points markers lineSegments scene object3DId].
      now apply owns_dropLine with (ps := ps).
Qed.

Lemma clear_scene (h : MeasurementHelper) :
  clear h = mkMeasurementHelper
              (removeEach (markers h ++ lineSegments h) (scene h)) [] [] []
              (object3DId h).
Proof.
  assert (Hfold : forall objects g,
    fold_left (fun g o => sceneRemove o g) objects g
    = mkMeasurementHelper (removeEach objects (scene g)) (points g) (markers g)
        (lineSegments g) (object3DId g)).
  { unfold removeEach. induction objects as [|o rest IH]; intros g; simpl.
    - now destruct g.
    - now rewrite IH. }
  unfold clear, removeEach. rewrite !Hfold. simpl.
  unfold removeEach. now rewrite fold_left_app.
Qed.

Lemma owns_clear (scene0 : Scene) (n0 : nat) (h : MeasurementHelper) :
  allocated_before n0 scene0 ->
  owns scene0 n0 h ->
  clear h = mkMeasurementHelper scene0 [] [] [] (object3DId h).
Proof.
  intros Hfresh (Hle & Hheld & owned & Hsc & Hnd & Hlt & Hincl).
  rewrite clear_scene, Hsc.
  rewrite removeEach_app_absent with (n0 := n0) by assumption.
  rewrite removeEach_all by assumption.
  now rewrite app_nil_r.
Qed.

Lemma owns_step (scene0 : Scene) (n0 : nat) (h : MeasurementHelper) (op : Op) :
  allocated_before n0 scene0 ->
  owns scene0 n0 h -> owns scene0 n0 (step h op).
Proof.
  intros Hfresh H. destruct op; simpl.
  - now apply owns_addPoint.
  - now apply owns_removeLastMeasurement.
  - rewrite (owns_clear Hfresh H).
    destruct H as (Hle & _). split; [exact Hle|]. split; [constructor|].
    exists []. simpl. rewrite app_nil_r. repeat split; try constructor.
    intros y [].
Qed.

Lemma owns_run (scene0 : Scene) (n0 : nat) (ops : list Op) (h : MeasurementHelper) :
  allocated_before n0 scene0 ->
  owns scene0 n0 h -> owns scene0 n0 (run ops h).
Proof.
  intros Hfresh. unfold Measurement.run. revert h.
  induction ops as [|op rest IH]; intros h H; simpl; [assumption|].
  apply IH. now apply owns_step.
Qed.

(** C10: [clear] is idempotent. In every state the helper can reach from a
    new one, it takes every marker, line and label of the helper out of the
    scene, which is left as it was before the helper was built, and empties
    the three collections; a second [clear] changes nothing. *)
Theorem clear_idempotent (scene0 : Scene) (n0 : nat) (ops : list Op) :
  allocated_before n0 scene0 ->
  let h := run ops (Measurement.new scene0 n0) in
  scene (clear h) = scene0
  /\ Forall (fun o => includes o (scene (clear h)) = false)
       (markers h ++ lineSegments h)
  /\ points (clear h) = [] /\ markers (clear h) = []
  /\ lineSegments (clear h) = []
  /\ clear (clear h) = clear h.
Proof.
  intros Hfresh h.
  assert (Hown : owns scene0 n0 h) by (apply owns_run; [assumption | apply owns_new]).
  rewrite (owns_clear Hfresh Hown). cbn [scene points markers lineSegments].
  repeat split.
  destruct Hown as (_ & Hheld & _).
  eapply Forall_impl; [|exact Hheld]. cbv beta. intros o Ho.
  unfold includes. apply not_true_is_false. intros Hex.
  apply existsb_exists in Hex. destruct Hex as (child & Hin & Heq).
  apply Nat.eqb_eq in Heq. unfold allocated_before in Hfresh.
  rewrite Forall_forall in Hfresh. specialize (Hfresh child Hin). lia.
Qed.

(** *** The segment and its label *)

(** [nearest] rounds to the closest integer, up on a tie: with
    [s = m * 10^f] and [d = 2^(-e)], [n] is the floor of [s / d + 1/2]. *)
Lemma nearest_rounds (m : positive) (e : Z) (f : nat) :
  (e < 0)%Z ->
  let s := (Z.pos m * 10 ^ Z.of_nat f)%Z in
  let d := (2 ^ (- e))%Z in
  let n := JSNumber.nearest m e f in
  (2 * d * n <= 2 * s + d < 2 * d * (n + 1))%Z.
Proof.
  intros He s d n. subst n. unfold JSNumber.nearest.
  replace (0 <=? e)%Z with false by (symmetry; apply Z.leb_gt; exact He).
  fold s. fold d.
  assert (Hd : (0 < 2 * d)%Z) by (subst d; pose proof (Z.pow_pos_nonneg 2 (- e)); lia).
  split.
  - apply Z.mul_div_le. exact Hd.
  - rewrite Z.mul_add_distr_l, Z.mul_1_r.
    pose proof (Z.mod_pos_bound (2 * s + d) (2 * d) Hd) as Hmod.
    pose proof (Z.div_mod (2 * s + d) (2 * d)) as Hdm. lia.
Qed.

Lemma nearest_exact (m : positive) (e : Z) (f : nat) :
  (0 <= e)%Z ->
  JSNumber.nearest m e f = (Z.pos m * 10 ^ Z.of_nat f * 2 ^ e)%Z.
Proof.
  intros He. unfold JSNumber.nearest.
  now replace (0 <=? e)%Z with true by (symmetry; apply Z.leb_le; exact He).
Qed.

(** C5, as the code has it: [createLineSegment] returns the binary64
    Euclidean distance of the two points; the label reads that distance
    times 100 with one fractional digit, followed by " cm" ("100.0 cm" when
    the distance is 1); and the label sits at the midpoint raised by 0.05
    along y. *)
Theorem createLineSegment_label (point1 point2 : Vector3) (h : MeasurementHelper) :
  let r := createLineSegment point1 point2 h in
  let dx := (x point1 - x point2)%float in
  let dy := (y point1 - y point2)%float in
  let dz := (z point1 - z point2)%float in
  let mid := mkVector3 ((x point1 + x point2) * 0.5) ((y point1 + y point2) * 0.5)
               ((z point1 + z point2) * 0.5) in
  fst r = sqrt (dx * dx + dy * dy + dz * dz)%float
  /\ lastLabel (snd r)
     = Some ((JSNumber.toFixed numberToString 1 (fst r * 100) ++ " cm")%string,
             mkVector3 (x mid) (y mid + 0.05) (z mid))
  /\ (fst r = 1%float ->
      lastLabel (snd r)
      = Some ("100.0 cm"%string, mkVector3 (x mid) (y mid + 0.05) (z mid))).
Proof.
  intros r dx dy dz mid.
  assert (Hfst : fst r = distanceTo point1 point2) by reflexivity.
  assert (Hlabel : lastLabel (snd r)
     = Some ((JSNumber.toFixed numberToString 1 (fst r * 100) ++ " cm")%string,
             mkVector3 (x mid) (y mid + 0.05) (z mid))).
  { subst r. unfold Measurement.createLineSegment, Measurement.createTextLabel, lastLabel.
    cbn [alloc sceneAdd pushLine pushMarker fst snd markers].
    now rewrite pop_snoc. }
  split; [exact Hfst|]. split; [exact Hlabel|].
  intros Hone. rewrite Hlabel, Hone. reflexivity.
Qed.

End MeasurementFacts.

(** ** The caller of [addPoint] *)

Section CallerFacts.

Import THREE Measurement.

Variables XRHitTestSource Matrix4 Quaternion : Type.
Variable numberToString : float -> string.

Local Notation Page := (App.Page XRHitTestSource Matrix4 Quaternion).
Local Notation onSelect := (@App.onSelect XRHitTestSource Matrix4 Quaternion numberToString).
Local Notation addPoint := (Measurement.addPoint numberToString).

(** C6: [addPoint] does not refuse a point once two are there: it appends
    the point, returns the new count and adds a marker and a segment (line
    and label) from the last point to the new one. What keeps a third point
    out is [onSelect]: it does nothing unless [measuring] is set, and it
    resets [measuring] when the count reaches two. *)
Theorem addPoint_beyond_two (position : Vector3) (h : MeasurementHelper) :
  2 <= List.length (points h) ->
  let previous := last (points h) origin in
  let marker := mkObject3D (object3DId h) (Mesh position) in
  let line := mkObject3D (S (object3DId h)) (Line previous position) in
  let label :=
    mkObject3D (S (S (object3DId h)))
      (Sprite (labelText numberToString previous position)
         (labelPosition previous position)) in
  (fst (addPoint position h) = List.length (points h) + 1
   /\ points (snd (addPoint position h)) = points h ++ [position]
   /\ lineSegments (snd (addPoint position h)) = lineSegments h ++ [line]
   /\ markers (snd (addPoint position h)) = markers h ++ [marker; label]
   /\ scene (snd (addPoint position h)) = scene h ++ [marker; line; label])
  /\ (forall page : Page, App.measuring page = false -> onSelect page = page)
  /\ (forall (page : Page) hit rest,
        App.measuring page = true ->
        HitTest.hitResults (App.hitTestManager page) = hit :: rest ->
        List.length (points (App.measurementHelper page)) = 1 ->
        App.measuring (onSelect page) = false
        /\ List.length (points (App.measurementHelper (onSelect page))) = 2).
Proof.
  intros Hlen previous marker line label.
  split; [|split].
  - rewrite addPoint_with_previous by lia. cbn [fst snd points lineSegments markers scene].
    repeat split. lia.
  - intros page Hoff. unfold App.onSelect. now rewrite Hoff.
  - intros page hit rest Hon Hhit Hone. unfold App.onSelect.
    rewrite Hon, Hhit. cbn [negb].
    rewrite addPoint_with_previous by lia. rewrite Hone.
    cbn [Nat.eqb App.measuring App.measurementHelper points].
    split; [reflexivity|]. rewrite length_app, Hone. reflexivity.
Qed.

End CallerFacts.

(** ** The hit-test manager *)

Section HitTestFacts.

Import HitTest.

Variables XRSpace XRHitTestSource Exception Matrix4 Quaternion : Type.
Variable fromArray : list float -> Matrix4.
Variable setFromMatrixPosition : Matrix4 -> THREE.Vector3.
Variable setFromRotationMatrix : Matrix4 -> Quaternion.

Local Notation Manager := (HitTestManager XRHitTestSource Matrix4 Quaternion).
Local Notation Session := (XRSession XRSpace XRHitTestSource Exception).
Local Notation Frame := (XRFrame XRSpace XRHitTestSource Exception).
Local Notation St := (State XRSpace XRHitTestSource Exception Matrix4 Quaternion).
Local Notation request :=
  (@requestHitTestSource XRSpace XRHitTestSource Exception Matrix4 Quaternion).

Ltac run_monad :=
  unfold requestHitTestSource, getHitTestResults, dispose, tryCatch, bind,
    this, ret, emit, await, assign;
  cbn [fst snd hitTestSource hitTestSourceRequested hitMatrix hitResults
       set_hitTestSource set_hitTestSourceRequested set_hitMatrix set_hitResults].

Lemma acquisitions_app (events events' : list (Event XRSpace XRHitTestSource Exception)) :
  acquisitions (events ++ events') = acquisitions events + acquisitions events'.
Proof.
  induction events as [|ev rest IH]; simpl; [reflexivity|].
  destruct ev; simpl; now rewrite IH.
Qed.

(** A call on a manager whose flag is set returns at once. *)
Lemma request_when_requested (session : Session) (referenceSpace : XRSpace) (st : St) :
  hitTestSourceRequested (fst st) = true ->
  request session referenceSpace st = (Normal tt, st).
Proof. intros H. run_monad. now rewrite H. Qed.

(** A call that sets the flag asked the session for exactly one source. *)
Lemma request_sets_flag (session : Session) (referenceSpace : XRSpace) (st : St) :
  hitTestSourceRequested (fst st) = false ->
  hitTestSourceRequested (fst (snd (request session referenceSpace st))) = true ->
  acquisitions (snd (snd (request session referenceSpace st)))
  = S (acquisitions (snd st)).
Proof.
  intros Hoff. run_monad. rewrite Hoff.
  destruct (supportsHitTest session); cbn [negb fst snd hitTestSourceRequested].
  - destruct (session_requestReferenceSpace session "viewer") as [space | e];
      cbn [fst snd hitTestSourceRequested].
    + destruct (session_requestHitTestSource session space) as [source | e];
        cbn [fst snd hitTestSourceRequested].
      * intros _. rewrite !acquisitions_app. simpl. lia.
      * rewrite Hoff. discriminate.
    + rewrite Hoff. discriminate.
  - rewrite Hoff. discriminate.
Qed.

(** C8: on a manager whose flag is set a call changes nothing and does
    nothing outside; so of two calls in a row, the first of which set the
    flag, only the first asks the session for a hit-test source. *)
Theorem requestHitTestSource_idempotent :
  (forall (session : Session) (referenceSpace : XRSpace) (st : St),
     hitTestSourceRequested (fst st) = true ->
     request session referenceSpace st = (Normal tt, st))
  /\ (forall (first second : Session) (space1 space2 : XRSpace) (st : St),
        hitTestSourceRequested (fst st) = false ->
        let st1 := snd (request first space1 st) in
        hitTestSourceRequested (fst st1) = true ->
        request second space2 st1 = (Normal tt, st1)
        /\ acquisitions (snd (snd (request second space2 st1)))
           = S (acquisitions (snd st))).
Proof.
  split.
  - apply request_when_requested.
  - intros first second space1 space2 st Hoff st1 Hon.
    rewrite (request_when_requested second space2 st1 Hon).
    split; [reflexivity|]. cbn [snd]. now apply request_sets_flag.
Qed.

(** C9: when the session lacks the capability, or one of the two awaited
    steps is rejected, the promise of [requestHitTestSource] is fulfilled all
    the same, the manager is as it was (no source, flag unset), and a later
    call on a session that answers gets the source. *)
Theorem requestHitTestSource_failure (session : Session) (referenceSpace : XRSpace) (st : St) :
  hitTestSourceRequested (fst st) = false ->
  (supportsHitTest session = false
   \/ (exists e, session_requestReferenceSpace session "viewer" = Throw e)
   \/ (exists space e,
         session_requestReferenceSpace session "viewer" = Normal space
         /\ session_requestHitTestSource session space = Throw e)) ->
  let r := request session referenceSpace st in
  fst r = Normal tt
  /\ fst (snd r) = fst st
  /\ hitTestSourceRequested (fst (snd r)) = false
  /\ (hitTestSource (fst st) = None -> hitTestSource (fst (snd r)) = None)
  /\ (forall (retry : Session) (referenceSpace' space : XRSpace) (source : XRHitTestSource),
        supportsHitTest retry = true ->
        session_requestReferenceSpace retry "viewer" = Normal space ->
        session_requestHitTestSource retry space = Normal source ->
        let r' := request retry referenceSpace' (snd r) in
        fst r' = Normal tt
        /\ hitTestSource (fst (snd r')) = Some source
        /\ hitTestSourceRequested (fst (snd r')) = true).
Proof.
  intros Hoff Hfail r.
  assert (Hr : fst r = Normal tt /\ fst (snd r) = fst st).
  { subst r. run_monad. rewrite Hoff.
    destruct Hfail as [Hcap | [(e & Hspace) | (space & e & Hspace & Hsource)]].
    - rewrite Hcap. cbn [negb fst snd]. split; reflexivity.
    - destruct (supportsHitTest session); cbn [negb fst snd]; [|split; reflexivity].
      rewrite Hspace. cbn [fst snd]. split; reflexivity.
    - destruct (supportsHitTest session); cbn [negb fst snd]; [|split; reflexivity].
      rewrite Hspace. cbn [fst snd]. rewrite Hsource. cbn [fst snd]. split; reflexivity. }
  destruct Hr as (Hnormal & Hsame).
  split; [exact Hnormal|]. split; [exact Hsame|].
  rewrite Hsame. split; [exact Hoff|]. split; [auto|].
  intros retry referenceSpace' space source Hcap Hspace Hsource r'.
  subst r'. run_monad. rewrite Hsame, Hoff, Hcap. cbn [negb fst snd].
  rewrite Hspace. cbn [fst snd]. rewrite Hsource. cbn [fst snd].
  repeat split.
Qed.

(** C7: [getHitTestResults] returns the empty list, and does not throw, when
    the manager has no source, when the frame reports no hit, and when the
    first hit has no pose in the reference space; when it has one, the
    result is the single [HitResult] read off that pose's matrix. In each
    case the list returned is the one left in [hitResults]. *)
Theorem getHitTestResults_cases (frame : Frame) (referenceSpace : XRSpace) (st : St) :
  let r := getHitTestResults fromArray setFromMatrixPosition
             setFromRotationMatrix frame referenceSpace st in
  (hitTestSource (fst st) = None ->
   fst r = Normal [] /\ hitResults (fst (snd r)) = [])
  /\ (forall source,
        hitTestSource (fst st) = Some source ->
        frame_getHitTestResults frame source = Normal [] ->
        fst r = Normal [] /\ hitResults (fst (snd r)) = [])
  /\ (forall source hit rest,
        hitTestSource (fst st) = Some source ->
        frame_getHitTestResults frame source = Normal (hit :: rest) ->
        getPose hit referenceSpace = Normal None ->
        fst r = Normal [] /\ hitResults (fst (snd r)) = [])
  /\ (forall source hit rest pose,
        hitTestSource (fst st) = Some source ->
        frame_getHitTestResults frame source = Normal (hit :: rest) ->
        getPose hit referenceSpace = Normal (Some pose) ->
        let m := fromArray (transform_matrix pose) in
        let result :=
          mkHitResult (setFromMatrixPosition m) (setFromRotationMatrix m) m in
        fst r = Normal [result] /\ hitResults (fst (snd r)) = [result]).
Proof.
  intros r. subst r. split; [|split; [|split]].
  - intros Hnone. run_monad. rewrite Hnone. split; reflexivity.
  - intros source Hsource Hhits. run_monad. rewrite Hsource, Hhits.
    split; reflexivity.
  - intros source hit rest Hsource Hhits Hpose. run_monad.
    rewrite Hsource, Hhits. cbn [fst snd]. rewrite Hpose. split; reflexivity.
  - intros source hit rest pose Hsource Hhits Hpose m result. run_monad.
    rewrite Hsource, Hhits. cbn [fst snd]. rewrite Hpose. split; reflexivity.
Qed.

End HitTestFacts.

(** ** Instances *)

Lemma label_is_last_marker_witness :
  allocated_before 1 pageScene
  /\ Measurement.markers
       (Measurement.removeLastMeasurement
          (completed unusedFallback pageScene 1 pointA pointB))
     = [THREE.mkObject3D 1 (THREE.Mesh pointA); THREE.mkObject3D 2 (THREE.Mesh pointB)].
Proof.
  assert (H : allocated_before 1 pageScene) by (repeat constructor).
  split; [exact H|].
  exact (proj1 (proj2 (proj2 (proj2
    (label_is_last_marker unusedFallback pointA pointB H))))).
Defined.

Lemma clear_idempotent_witness :
  allocated_before 1 pageScene
  /\ Measurement.scene
       (Measurement.clear
          (Measurement.run unusedFallback
             [Measurement.AddPoint pointA; Measurement.AddPoint pointB;
              Measurement.RemoveLastMeasurement; Measurement.RemoveLastMeasurement]
             (Measurement.new pageScene 1)))
     = pageScene.
Proof.
  assert (H : allocated_before 1 pageScene) by (repeat constructor).
  split; [exact H|].
  exact (proj1 (clear_idempotent unusedFallback
    [Measurement.AddPoint pointA; Measurement.AddPoint pointB;
     Measurement.RemoveLastMeasurement; Measurement.RemoveLastMeasurement] H)).
Defined.

Lemma createLineSegment_label_witness :
  fst (Measurement.createLineSegment unusedFallback pointA pointB
         (Measurement.new pageScene 1)) = 1%float
  /\ lastLabel
       (snd (Measurement.createLineSegment unusedFallback pointA pointB
               (Measurement.new pageScene 1)))
     = Some ("100.0 cm"%string, THREE.mkVector3 (0 * 0.5) (0 * 0.5 + 0.05) ((-1 + -2) * 0.5)).
Proof.
  assert (H : fst (Measurement.createLineSegment unusedFallback pointA pointB
                     (Measurement.new pageScene 1)) = 1%float) by (vm_compute; reflexivity).
  split; [exact H|].
  exact (proj2 (proj2 (createLineSegment_label unusedFallback pointA pointB
                         (Measurement.new pageScene 1))) H).
Defined.

(** C5, as the specification states it, fails on the position of the label:
    for the points (0,0,-1) and (0,0,-2) the label is not at their midpoint. *)
Lemma label_not_at_midpoint :
  exists text position,
    lastLabel
      (snd (Measurement.createLineSegment unusedFallback pointA pointB
              (Measurement.new pageScene 1)))
    = Some (text, position)
    /\ position <> midPoint pointA pointB.
Proof.
  eexists. eexists. split; [vm_compute; reflexivity|].
  intros H. apply (f_equal THREE.y) in H.
  apply (f_equal (fun v => PrimFloat.eqb v 0)) in H.
  vm_compute in H. discriminate H.
Qed.

(** The scene along the two undos of C1, on a scene holding one object of
    the page: the label goes first, the second marker and the line go next,
    and the first marker stays. *)
Example undo_leaves_primitives :
  let h := completed unusedFallback pageScene 1 pointA pointB in
  let m1 := THREE.mkObject3D 1 (THREE.Mesh pointA) in
  let m2 := THREE.mkObject3D 2 (THREE.Mesh pointB) in
  let line := THREE.mkObject3D 3 (THREE.Line pointA pointB) in
  Measurement.scene (Measurement.removeLastMeasurement h)
  = pageScene ++ [m1; m2; line]
  /\ Measurement.scene
       (Measurement.removeLastMeasurement (Measurement.removeLastMeasurement h))
     = pageScene ++ [m1].
Proof. split; vm_compute; reflexivity. Qed.

Lemma addPoint_beyond_two_witness :
  2 <= List.length (Measurement.points (completed unusedFallback pageScene 1 pointA pointB))
  /\ fst (Measurement.addPoint unusedFallback pointC
            (completed unusedFallback pageScene 1 pointA pointB)) = 2 + 1.
Proof.
  assert (H : 2 <= List.length
                (Measurement.points (completed unusedFallback pageScene 1 pointA pointB)))
    by (simpl; lia).
  split; [exact H|].
  exact (proj1 (proj1 (@addPoint_beyond_two unit unit unit unusedFallback pointC
                   (completed unusedFallback pageScene 1 pointA pointB) H))).
Defined.

Lemma getHitTestResults_cases_witness :
  fst (HitTest.getHitTestResults exampleFromArray examplePosition exampleRotation
         emptyFrame localSpace (exampleState None false))
  = HitTest.Normal []
  /\ fst (HitTest.getHitTestResults exampleFromArray examplePosition exampleRotation
            emptyFrame localSpace (exampleState (Some 7) true))
     = HitTest.Normal []
  /\ fst (HitTest.getHitTestResults exampleFromArray examplePosition exampleRotation
            poselessFrame localSpace (exampleState (Some 7) true))
     = HitTest.Normal []
  /\ fst (HitTest.getHitTestResults exampleFromArray examplePosition exampleRotation
            hitFrame localSpace (exampleState (Some 7) true))
     = HitTest.Normal
         [HitTest.mkHitResult pointA tt
            [1; 0; 0; 0; 0; 1; 0; 0; 0; 0; 1; 0; 0; 0; -1; 1]%float].
Proof.
  split; [|split; [|split]].
  - exact (proj1 (proj1
      (getHitTestResults_cases exampleFromArray examplePosition exampleRotation
         emptyFrame localSpace (exampleState None false)) eq_refl)).
  - exact (proj1 (proj1 (proj2
      (getHitTestResults_cases exampleFromArray examplePosition exampleRotation
         emptyFrame localSpace (exampleState (Some 7) true))) 7 eq_refl eq_refl)).
  - exact (proj1 (proj1 (proj2 (proj2
      (getHitTestResults_cases exampleFromArray examplePosition exampleRotation
         poselessFrame localSpace (exampleState (Some 7) true))))
      7 _ [] eq_refl eq_refl eq_refl)).
  - exact (proj1 (proj2 (proj2 (proj2
      (getHitTestResults_cases exampleFromArray examplePosition exampleRotation
         hitFrame localSpace (exampleState (Some 7) true))))
      7 _ [] examplePose eq_refl eq_refl eq_refl)).
Defined.

Lemma requestHitTestSource_idempotent_witness :
  HitTest.requestHitTestSource answeringSession localSpace (exampleState (Some 7) true)
  = (HitTest.Normal tt, exampleState (Some 7) true)
  /\ HitTest.acquisitions
       (snd (snd (HitTest.requestHitTestSource answeringSession localSpace
                    (snd (HitTest.requestHitTestSource answeringSession localSpace
                            (exampleState None false))))))
     = 1.
Proof.
  split.
  - exact (proj1 (requestHitTestSource_idempotent string nat string (list float) unit)
             answeringSession localSpace (exampleState (Some 7) true) eq_refl).
  - exact (proj2 (proj2 (requestHitTestSource_idempotent string nat string (list float) unit)
             answeringSession answeringSession localSpace localSpace
             (exampleState None false) eq_refl eq_refl)).
Defined.

Lemma requestHitTestSource_failure_witness :
  fst (HitTest.requestHitTestSource plainSession localSpace (exampleState None false))
  = HitTest.Normal tt
  /\ fst (snd (HitTest.requestHitTestSource rejectingSession localSpace
                 (exampleState None false)))
     = fst (exampleState None false)
  /\ HitTest.hitTestSource
       (fst (snd (HitTest.requestHitTestSource answeringSession localSpace
                    (snd (HitTest.requestHitTestSource rejectingSession localSpace
                            (exampleState None false))))))
     = Some 7.
Proof.
  pose proof (@requestHitTestSource_failure string nat string (list float) unit
                plainSession localSpace (exampleState None false) eq_refl
                (or_introl eq_refl)) as Hplain.
  pose proof (@requestHitTestSource_failure string nat string (list float) unit
                rejectingSession localSpace (exampleState None false) eq_refl
                (or_intror (or_intror
                   (ex_intro _ "viewer"%string
                      (ex_intro _ "NotSupportedError"%string
                         (conj eq_refl eq_refl)))))) as Hrejected.
  split; [|split].
  - exact (proj1 Hplain).
  - exact (proj1 (proj2 Hrejected)).
  - exact (proj1 (proj2
      (proj2 (proj2 (proj2 (proj2 Hrejected)))
         answeringSession localSpace "viewer"%string 7 eq_refl eq_refl eq_refl))).
Defined.

(** ** The hit-test manager over its lifetime *)

Section ManagerLifetime.

Import HitTest.

Variables XRSpace XRHitTestSource Exception Matrix4 Quaternion : Type.
Variable fromArray : list float -> Matrix4.
Variable setFromMatrixPosition : Matrix4 -> THREE.Vector3.
Variable setFromRotationMatrix : Matrix4 -> Quaternion.

Local Notation Manager := (HitTestManager XRHitTestSource Matrix4 Quaternion).
Local Notation Session := (XRSession XRSpace XRHitTestSource Exception).
Local Notation Frame := (XRFrame XRSpace XRHitTestSource Exception).
Local Notation St := (State XRSpace XRHitTestSource Exception Matrix4 Quaternion).
Local Notation request :=
  (@requestHitTestSource XRSpace XRHitTestSource Exception Matrix4 Quaternion).
Local Notation poll :=
  (@getHitTestResults XRSpace XRHitTestSource Exception Matrix4 Quaternion
     fromArray setFromMatrixPosition setFromRotationMatrix).
Local Notation release :=
  (@dispose XRSpace XRHitTestSource Exception Matrix4 Quaternion).
Local Notation step := (managerStep fromArray setFromMatrixPosition setFromRotationMatrix).
Local Notation run := (managerRun fromArray setFromMatrixPosition setFromRotationMatrix).

Ltac run_manager :=
  unfold requestHitTestSource, getHitTestResults, dispose, tryCatch, bind,
    this, ret, emit, await, assign;
  cbn [fst snd hitTestSource hitTestSourceRequested hitMatrix hitResults
       set_hitTestSource set_hitTestSourceRequested set_hitMatrix set_hitResults].

Lemma cancellations_app (events events' : list (Event XRSpace XRHitTestSource Exception)) :
  cancellations (events ++ events') = cancellations events + cancellations events'.
Proof.
  induction events as [|ev rest IH]; simpl; [reflexivity|].
  destruct ev; simpl; now rewrite IH.
Qed.

Lemma acquisitions_split (events events' : list (Event XRSpace XRHitTestSource Exception)) :
  acquisitions (events ++ events') = acquisitions events + acquisitions events'.
Proof.
  induction events as [|ev rest IH]; simpl; [reflexivity|].
  destruct ev; simpl; now rewrite IH.
Qed.


(** X2: the promise of [requestHitTestSource] is fulfilled for every
    session and every manager, whatever the session answers; the call
    leaves [hitResults] and [hitMatrix] alone, and it sets the flag exactly
    when it stores a source. *)
Theorem requestHitTestSource_never_rejects (session : Session)
    (referenceSpace : XRSpace) (st : St) :
  let r := request session referenceSpace st in
  fst r = Normal tt
  /\ hitResults (fst (snd r)) = hitResults (fst st)
  /\ hitMatrix (fst (snd r)) = hitMatrix (fst st)
  /\ (fst (snd r) = fst st
      \/ exists source,
           hitTestSourceRequested (fst st) = false
           /\ fst (snd r)
              = set_hitTestSourceRequested true
                  (set_hitTestSource (Some source) (fst st))).
Proof.
  destruct st as [m events]. run_manager.
  destruct (hitTestSourceRequested m) eqn:Hflag; cbn [fst snd]; [auto 6|].
  destruct (supportsHitTest session); cbn [negb fst snd]; [|auto 6].
  destruct (session_requestReferenceSpace session "viewer") as [space|e];
    cbn [fst snd]; [|auto 6].
  destruct (session_requestHitTestSource session space) as [source|e];
    cbn [fst snd hitResults hitMatrix]; [|auto 6].
  repeat split. right. exists source. split; reflexivity.
Qed.

(** The ways a call of [requestHitTestSource] ends. *)
Lemma request_cases (session : Session) (referenceSpace : XRSpace)
    (m : Manager) (events : list (Event XRSpace XRHitTestSource Exception)) :
  exists m' events',
    request session referenceSpace (m, events) = (Normal tt, (m', events ++ events'))
    /\ ((m' = m /\ acquisitions events' <= 1 /\ cancellations events' = 0
         /\ (hitTestSourceRequested m = true -> events' = []))
        \/ (exists source,
              hitTestSourceRequested m = false
              /\ m' = set_hitTestSourceRequested true (set_hitTestSource (Some source) m)
              /\ acquisitions events' = 1 /\ cancellations events' = 0)).
Proof.
  run_manager.
  destruct (hitTestSourceRequested m) eqn:Hflag; cbn [fst snd].
  { exists m, []. rewrite app_nil_r. split; [reflexivity|]. left. simpl. auto. }
  destruct (supportsHitTest session); cbn [negb fst snd].
  2:{ eexists m, [_]. split; [reflexivity|]. left. simpl.
      repeat split; auto. discriminate. }
  destruct (session_requestReferenceSpace session "viewer") as [space|e]; cbn [fst snd].
  2:{ eexists m, [_; _]. rewrite <- app_assoc. split; [reflexivity|]. left. simpl.
      repeat split; auto. discriminate. }
  destruct (session_requestHitTestSource session space) as [source|e]; cbn [fst snd].
  - eexists _, [_; _]. rewrite <- app_assoc. split; [reflexivity|]. right.
    exists source. simpl. repeat split.
  - eexists m, [_; _; _]. rewrite <- !app_assoc. split; [reflexivity|]. left. simpl.
    repeat split; auto. discriminate.
Qed.

(** The ways a call of [getHitTestResults] ends. *)
Lemma poll_cases (frame : Frame) (referenceSpace : XRSpace)
    (m : Manager) (events : list (Event XRSpace XRHitTestSource Exception)) :
  exists completion results matrix,
    poll frame referenceSpace (m, events)
    = (completion,
       (mkHitTestManager (hitTestSource m) (hitTestSourceRequested m) matrix results,
        events))
    /\ List.length results <= 1
    /\ (completion = Normal results \/ (exists e, completion = Throw e) /\ results = []).
Proof.
  destruct m as [source flag matrix results]. run_manager.
  destruct source as [source|]; cbn [fst snd].
  2:{ exists (Normal []), [], matrix. repeat split; auto. }
  destruct (frame_getHitTestResults frame source) as [[|hit rest]|e]; cbn [fst snd].
  - exists (Normal []), [], matrix. repeat split; auto.
  - destruct (getPose hit referenceSpace) as [[pose|]|e]; cbn [fst snd hitMatrix hitResults app].
    + eexists (Normal [_]), [_], _. repeat split; auto.
    + exists (Normal []), [], matrix. repeat split; auto.
    + exists (Throw e), [], matrix. repeat split; eauto.
  - exists (Throw e), [], matrix. repeat split; eauto.
Qed.

Lemma consistent_step (st : St) (op : ManagerOp XRSpace XRHitTestSource Exception) :
  consistent st -> consistent (step st op).
Proof.
  destruct st as [m events]. unfold consistent, liveSources. cbn [fst snd].
  intros (Hiff & Hlen & Hcount). destruct op as [session space|frame space|];
    cbn [managerStep].
  - destruct (request_cases session space m events)
      as (m' & events' & -> & [(-> & Hacq & Hcan & _) | (source & Hoff & -> & Hacq & Hcan)]);
      cbn [fst snd]; rewrite acquisitions_split, cancellations_app.
    + repeat split; try tauto. lia.
    + assert (Hnone : hitTestSource m = None).
      { destruct (hitTestSource m) eqn:E; [|reflexivity].
        assert (hitTestSourceRequested m = true) by (apply Hiff; discriminate).
        congruence. }
      rewrite Hnone in Hcount.
      cbn [hitTestSource hitTestSourceRequested hitResults
           set_hitTestSource set_hitTestSourceRequested].
      repeat split; try discriminate; [assumption | lia].
  - destruct (poll_cases frame space m events)
      as (completion & results & matrix & -> & Hresults & _).
    cbn [fst snd hitTestSource hitTestSourceRequested hitResults].
    repeat split; tauto.
  - destruct m as [[source|] flag matrix results]; run_manager;
      cbn [fst snd hitTestSource hitTestSourceRequested hitResults] in *.
    + rewrite acquisitions_split, cancellations_app. simpl.
      repeat split; try discriminate; try tauto; lia.
    + repeat split; try discriminate; try tauto; lia.
Qed.

Lemma consistent_run (ops : list (ManagerOp XRSpace XRHitTestSource Exception)) (st : St) :
  consistent st -> consistent (run ops st).
Proof.
  unfold managerRun. revert st.
  induction ops as [|op rest IH]; intros st H; simpl; [assumption|].
  apply IH. now apply consistent_step.
Qed.

Lemma consistent_new (identity : Matrix4) :
  consistent (HitTest.new XRHitTestSource Quaternion identity,
              @nil (Event XRSpace XRHitTestSource Exception)).
Proof.
  unfold consistent, liveSources. simpl. repeat split; try discriminate; auto.
Qed.

(** X3: after any sequence of calls on a new manager the flag is set
    exactly when a source is held, and [hitResults] holds at most one
    result. *)
Theorem manager_flag_tracks_source (identity : Matrix4)
    (ops : list (ManagerOp XRSpace XRHitTestSource Exception)) :
  let st := run ops (HitTest.new XRHitTestSource Quaternion identity, []) in
  (hitTestSourceRequested (fst st) = true <-> hitTestSource (fst st) <> None)
  /\ List.length (hitResults (fst st)) <= 1.
Proof.
  intros st. destruct (consistent_run ops (consistent_new identity)) as (H1 & H2 & _).
  split; assumption.
Qed.


(** X5: [getHitTestResults] has no handler of its own: when the frame's
    query or the pose lookup throws, the call throws the same value, and it
    leaves [hitResults] empty and the source, the flag and the events as
    they were. *)
Theorem getHitTestResults_propagates (frame : Frame) (referenceSpace : XRSpace)
    (st : St) (source : XRHitTestSource) (e : Exception) :
  hitTestSource (fst st) = Some source ->
  (frame_getHitTestResults frame source = Throw e
   \/ exists hit rest,
        frame_getHitTestResults frame source = Normal (hit :: rest)
        /\ getPose hit referenceSpace = Throw e) ->
  poll frame referenceSpace st = (Throw e, (set_hitResults [] (fst st), snd st)).
Proof.
  destruct st as [m events]. cbn [fst snd]. intros Hsource Hthrow. run_manager.
  rewrite Hsource.
  destruct Hthrow as [Hquery | (hit & rest & Hquery & Hpose)]; rewrite Hquery; cbn [fst snd].
  - reflexivity.
  - rewrite Hpose. reflexivity.
Qed.

(** X6: what [getHitTestResults] returns and caches does not depend on what
    was cached before: the previous results and matrix are discarded. The
    call adds no event and keeps the source and the flag. *)
Theorem getHitTestResults_forgets_previous (frame : Frame) (referenceSpace : XRSpace)
    (m : Manager) (matrix : Matrix4)
    (results : list (HitResult Matrix4 Quaternion))
    (events : list (Event XRSpace XRHitTestSource Exception)) :
  let stale :=
    mkHitTestManager (hitTestSource m) (hitTestSourceRequested m) matrix results in
  let r := poll frame referenceSpace (m, events) in
  let r' := poll frame referenceSpace (stale, events) in
  fst r' = fst r
  /\ hitResults (fst (snd r')) = hitResults (fst (snd r))
  /\ hitTestSource (fst (snd r)) = hitTestSource m
  /\ hitTestSourceRequested (fst (snd r)) = hitTestSourceRequested m
  /\ snd (snd r) = events.
Proof.
  destruct m as [source flag matrix0 results0]. run_manager.
  destruct source as [source|]; cbn [fst snd]; [|repeat split].
  destruct (frame_getHitTestResults frame source) as [[|hit rest]|e]; cbn [fst snd];
    [repeat split| |repeat split].
  destruct (getPose hit referenceSpace) as [[pose|]|e];
    cbn [fst snd hitMatrix hitResults app]; repeat split.
Qed.


End ManagerLifetime.

(** ** The measurement helper over sequences of calls *)

Section MeasurementRuns.

Import THREE Measurement.

Variable numberToString : float -> string.

Local Notation addPoint := (Measurement.addPoint numberToString).
Local Notation run := (Measurement.run numberToString).
Local Notation step := (Measurement.step numberToString).

Lemma run_app (ops ops' : list Op) (h : MeasurementHelper) :
  run (ops ++ ops') h = run ops' (run ops h).
Proof. unfold Measurement.run. apply fold_left_app. Qed.

Lemma addPoints_from (ps : list Vector3) (h : MeasurementHelper) :
  let h' := run (map AddPoint ps) h in
  let extra := segmentsAdded (List.length (points h)) (List.length ps) in
  points h' = points h ++ ps
  /\ List.length (lineSegments h') = List.length (lineSegments h) + extra
  /\ List.length (markers h') = List.length (markers h) + List.length ps + extra
  /\ List.length (scene h') = List.length (scene h) + List.length ps + 2 * extra
  /\ object3DId h' = object3DId h + List.length ps + 2 * extra.
Proof.
  revert h. induction ps as [|p ps IH]; intros h.
  - unfold segmentsAdded. simpl. rewrite app_nil_r.
    destruct (List.length (points h) =? 0); repeat split; lia.
  - cbn [map]. change (AddPoint p :: map AddPoint ps)
      with ([AddPoint p] ++ map AddPoint ps).
    rewrite run_app. cbv zeta.
    specialize (IH (run [AddPoint p] h)). cbv zeta in IH.
    destruct IH as (Hp & Hl & Hm & Hs & Hid).
    rewrite Hp, Hl, Hm, Hs, Hid. clear Hp Hl Hm Hs Hid.
    unfold Measurement.run. cbn [fold_left Measurement.step].
    rewrite addPoint_unfold. unfold segmentsAdded.
    destruct (points h) as [|previous front _] using rev_ind.
    + cbn [rev snd points lineSegments markers scene object3DId List.length Nat.eqb app].
      rewrite !length_app. cbn [List.length Nat.eqb]. repeat split; lia.
    + rewrite rev_app_distr. cbn [rev app snd points lineSegments markers scene object3DId].
      rewrite !length_app. cbn [List.length].
      replace (List.length front + 1 + 1 =? 0) with false
        by (symmetry; apply Nat.eqb_neq; lia).
      replace (List.length front + 1 =? 0) with false
        by (symmetry; apply Nat.eqb_neq; lia).
      rewrite <- app_assoc. repeat split; lia.
Qed.

(** X8: [n] calls of [addPoint] on a new helper keep the points in the
    order given and add a segment for every point but the first: there are
    [n - 1] line segments, [2n - 1] entries in [markers] (the point markers
    and the labels) and [3n - 2] more children in the scene, and the
    invariant [len(segments) == max(0, len(points) - 1)] holds. *)
Theorem addPoint_sequence (scene0 : Scene) (n0 : nat) (ps : list Vector3) :
  let h := run (map AddPoint ps) (Measurement.new scene0 n0) in
  points h = ps
  /\ List.length (lineSegments h) = List.length ps - 1
  /\ List.length (markers h) = 2 * List.length ps - 1
  /\ List.length (scene h) = List.length scene0 + (3 * List.length ps - 2)
  /\ segments_invariant h.
Proof.
  intros h. subst h.
  destruct (addPoints_from ps (Measurement.new scene0 n0)) as (Hp & Hl & Hm & Hs & _).
  unfold segments_invariant. rewrite Hp, Hl, Hm, Hs.
  unfold segmentsAdded. simpl. repeat split; lia.
Qed.

Lemma removeLastMeasurement_lengths (h : MeasurementHelper) :
  points h <> [] ->
  List.length (points (removeLastMeasurement h)) = List.length (points h) - 1
  /\ List.length (markers (removeLastMeasurement h)) = List.length (markers h) - 1.
Proof.
  destruct h as [sc ps ms ls nx]. cbn [points]. intros Hne.
  unfold removeLastMeasurement. cbn [points markers lineSegments scene object3DId].
  destruct ps as [|p ps _] using rev_ind; [congruence|].
  replace (List.length (ps ++ [p]) =? 0) with false
    by (symmetry; apply Nat.eqb_neq; rewrite length_app; simpl; lia).
  destruct ms as [|m ms _] using rev_ind;
    [change (0 <? List.length (@nil Object3D)) with false; cbv iota
    |rewrite length_snoc_pos, pop_snoc];
    cbn [sceneRemove points markers lineSegments scene object3DId];
    (destruct ls as [|l ls _] using rev_ind;
     [change (0 <? List.length (@nil Object3D)) with false; cbn [andb]
     |rewrite length_snoc_pos; cbn [andb];
      destruct (List.length (ps ++ [p]) mod 2 =? 1); [rewrite pop_snoc|]]);
    cbn [sceneRemove points markers lineSegments scene object3DId];
    rewrite pop_snoc; cbn [snd]; rewrite ?length_app; simpl; lia.
Qed.

Lemma removeLastMeasurement_empty (h : MeasurementHelper) :
  points h = [] -> removeLastMeasurement h = h.
Proof. intros H. unfold removeLastMeasurement. now rewrite H. Qed.

Lemma undo_lengths (k : nat) (h : MeasurementHelper) :
  let h' := run (repeat RemoveLastMeasurement k) h in
  List.length (points h') = List.length (points h) - k
  /\ List.length (markers h')
     = List.length (markers h) - Nat.min k (List.length (points h)).
Proof.
  revert h. induction k as [|k IH]; intros h.
  - simpl. split; lia.
  - cbn [repeat]. change (RemoveLastMeasurement :: repeat RemoveLastMeasurement k)
      with ([RemoveLastMeasurement] ++ repeat RemoveLastMeasurement k).
    rewrite run_app. cbv zeta.
    specialize (IH (run [RemoveLastMeasurement] h)). cbv zeta in IH.
    destruct IH as (Hp & Hm). rewrite Hp, Hm.
    unfold Measurement.run. cbn [fold_left Measurement.step].
    destruct (points h) as [|p ps] eqn:Hps.
    + rewrite removeLastMeasurement_empty by assumption. rewrite Hps. simpl.
      rewrite Nat.min_0_r. split; lia.
    + destruct (removeLastMeasurement_lengths h) as (Hp' & Hm');
        [rewrite Hps; discriminate|].
      rewrite Hp', Hm', Hps. cbn [List.length]. split; lia.
Qed.

(** X9: each [removeLastMeasurement] on a helper with points takes one
    point and one entry of [markers], labels included. So after [n] calls of
    [addPoint] on a new helper and [k] undos, [n - k] points are left and
    [2n - 1 - min k n] entries of [markers]: undoing all [n >= 1] points
    leaves [n - 1] entries behind, which further undos do not touch. *)
Theorem undo_counts (scene0 : Scene) (n0 : nat) (ps : list Vector3) (k : nat) :
  let h := run (map AddPoint ps ++ repeat RemoveLastMeasurement k)
             (Measurement.new scene0 n0) in
  List.length (points h) = List.length ps - k
  /\ List.length (markers h)
     = 2 * List.length ps - 1 - Nat.min k (List.length ps).
Proof.
  intros h. subst h. rewrite run_app.
  destruct (undo_lengths k (run (map AddPoint ps) (Measurement.new scene0 n0)))
    as (Hp & Hm).
  destruct (addPoints_from ps (Measurement.new scene0 n0)) as (Hp' & _ & Hm' & _).
  rewrite Hp, Hm, Hp', Hm'. unfold segmentsAdded. simpl. split; lia.
Qed.

(** X10: undoing the first point is exact. On a helper without points and
    without line segments, whose scene was allocated before its counter,
    [addPoint] followed by [removeLastMeasurement] gives the helper back,
    but for the object counter. *)
Theorem undo_first_point (position : Vector3) (h : MeasurementHelper) :
  points h = [] ->
  lineSegments h = [] ->
  allocated_before (object3DId h) (scene h) ->
  removeLastMeasurement (snd (addPoint position h))
  = mkMeasurementHelper (scene h) [] (markers h) [] (S (object3DId h)).
Proof.
  destruct h as [sc ps ms ls nx]. cbn [points lineSegments scene object3DId markers].
  intros -> -> Hfresh. rewrite addPoint_unfold.
  cbn [rev snd points markers scene lineSegments object3DId].
  unfold removeLastMeasurement.
  cbn [points markers lineSegments scene object3DId List.length Nat.eqb].
  rewrite length_snoc_pos, pop_snoc.
  cbn [sceneRemove points markers lineSegments scene object3DId List.length
       Nat.ltb Nat.leb andb pop rev snd].
  rewrite remove_app_absent
    by (apply allocated_before_neq with (n0 := nx); [assumption | simpl; lia]).
  simpl. rewrite Nat.eqb_refl. now rewrite app_nil_r.
Qed.

(** *** Registration along the operations *)

Lemma remove_keeps (o y : Object3D) (sc : Scene) :
  In y sc -> id y <> id o -> In y (remove o sc).
Proof.
  induction sc as [|child rest IH]; simpl; [tauto|].
  intros [-> | Hin] Hneq.
  - apply Nat.eqb_neq in Hneq. rewrite Hneq. now left.
  - destruct (id child =? id o); [assumption | right; auto].
Qed.

Lemma registered_at_perm (sc : Scene) (held held' : list Object3D) (nx : nat) :
  Permutation held held' ->
  registered_at sc held nx -> registered_at sc held' nx.
Proof.
  intros Hperm (Hnd & Hlt & Hincl). repeat split.
  - eapply Permutation_NoDup; [|exact Hnd]. now apply Permutation_map.
  - eapply Permutation_Forall; eassumption.
  - intros y Hy. apply Hincl. eapply Permutation_in; [|exact Hy].
    now apply Permutation_sym.
Qed.

Lemma registered_at_add (sc : Scene) (held : list Object3D) (nx : nat) (p : Primitive) :
  registered_at sc held nx ->
  registered_at (sc ++ [mkObject3D nx p]) (mkObject3D nx p :: held) (S nx).
Proof.
  intros (Hnd & Hlt & Hincl). repeat split.
  - simpl. constructor; [|assumption]. intros Hin.
    apply in_map_iff in Hin. destruct Hin as (y & Hy & Hin).
    rewrite Forall_forall in Hlt. specialize (Hlt y Hin). lia.
  - constructor; [simpl; lia|]. eapply Forall_impl; [|exact Hlt]. simpl. intros. lia.
  - intros y [<- | Hy]; apply in_or_app; [right; now left | left; now apply Hincl].
Qed.

Lemma registered_at_remove (sc : Scene) (front back : list Object3D)
    (o : Object3D) (nx : nat) :
  registered_at sc (front ++ o :: back) nx ->
  registered_at (remove o sc) (front ++ back) nx.
Proof.
  intros (Hnd & Hlt & Hincl). rewrite map_app in Hnd. simpl in Hnd.
  pose proof (NoDup_remove_1 _ _ _ Hnd) as Hrest.
  pose proof (NoDup_remove_2 _ _ _ Hnd) as Hfresh.
  rewrite <- map_app in Hrest, Hfresh.
  repeat split.
  - exact Hrest.
  - apply Forall_app in Hlt. destruct Hlt as (Hf & Hb). inversion Hb; subst.
    apply Forall_app. now split.
  - intros y Hy. apply remove_keeps.
    + apply Hincl. apply in_app_or in Hy. apply in_or_app.
      destruct Hy; [now left | right; now right].
    + intros Heq. apply Hfresh. rewrite <- Heq. now apply in_map.
Qed.

Lemma registered_new (scene0 : Scene) (n0 : nat) :
  registered (Measurement.new scene0 n0).
Proof. repeat split; try constructor. intros y []. Qed.

Lemma registered_addPoint (position : Vector3) (h : MeasurementHelper) :
  registered h -> registered (snd (addPoint position h)).
Proof.
  unfold registered. intros H. rewrite addPoint_unfold.
  destruct (rev (points h)) as [|previous rest];
    cbn [snd scene markers lineSegments object3DId].
  - eapply registered_at_perm; [|apply registered_at_add; exact H].
    rewrite <- app_assoc. simpl. apply Permutation_middle.
  - change (scene h ++ [?a; ?b; ?c]) with (scene h ++ [a] ++ [b] ++ [c]).
    rewrite !app_assoc.
    eapply registered_at_perm;
      [|apply registered_at_add, registered_at_add, registered_at_add; exact H].
    rewrite <- !app_assoc. cbn [app].
    match goal with
    | |- Permutation (?lbl :: ?l :: ?m :: ?ms ++ ?ls) (?ms ++ ?m :: ?lbl :: ?ls ++ [?l]) =>
        transitivity (m :: lbl :: (ls ++ [l]) ++ ms);
          [|rewrite (Permutation_app_comm ms (m :: lbl :: ls ++ [l])); reflexivity];
        transitivity (m :: lbl :: l :: ms ++ ls);
          [change (lbl :: l :: m :: ms ++ ls) with ([lbl; l] ++ m :: ms ++ ls);
           symmetry; apply (Permutation_middle [lbl; l])|];
        do 2 apply perm_skip;
        rewrite <- app_assoc; cbn [app];
        rewrite (Permutation_app_comm ms ls); apply Permutation_middle
    end.
Qed.

Lemma registered_removeLastMeasurement (h : MeasurementHelper) :
  registered h -> registered (removeLastMeasurement h).
Proof.
  destruct h as [sc ps ms ls nx]. unfold registered, removeLastMeasurement.
  cbn [points markers lineSegments scene object3DId]. intros H.
  destruct (List.length ps =? 0); [assumption|].
  assert (Hline : forall sc' ms',
    registered_at sc' (ms' ++ ls) nx ->
    let h' :=
      if (0 <? List.length ls) && (List.length ps mod 2 =? 1)
      then match pop ls with
           | (Some lastLine, rest) =>
               sceneRemove lastLine (mkMeasurementHelper sc' ps ms' rest nx)
           | (None, _) => mkMeasurementHelper sc' ps ms' ls nx
           end
      else mkMeasurementHelper sc' ps ms' ls nx in
    registered_at (scene h') (markers h' ++ lineSegments h') (object3DId h')).
  { intros sc' ms' H'. destruct ls as [|l ls' _] using rev_ind.
    - exact H'.
    - rewrite length_snoc_pos. cbn [andb].
      destruct (List.length ps mod 2 =? 1); [|exact H'].
      rewrite pop_snoc. cbv zeta.
      cbn [sceneRemove points markers lineSegments scene object3DId].
      rewrite app_assoc in H'. apply registered_at_remove in H'.
      now rewrite app_nil_r in H'. }
  destruct ms as [|m ms' _] using rev_ind.
  - change (0 <? List.length (@nil Object3D)) with false. cbv iota.
    cbn [points markers lineSegments scene object3DId].
    specialize (Hline sc [] H). cbv zeta in Hline.
    destruct ((0 <? List.length ls) && (List.length ps mod 2 =? 1));
      [destruct (pop ls) as [[lastLine|] rest]|]; exact Hline.
  - rewrite length_snoc_pos, pop_snoc.
    cbn [sceneRemove points markers lineSegments scene object3DId].
    rewrite <- app_assoc in H. apply registered_at_remove in H.
    specialize (Hline (remove m sc) ms' H). cbv zeta in Hline.
    destruct ((0 <? List.length ls) && (List.length ps mod 2 =? 1));
      [destruct (pop ls) as [[lastLine|] rest]|]; exact Hline.
Qed.

Lemma registered_step (h : MeasurementHelper) (op : Op) :
  registered h -> registered (step h op).
Proof.
  intros H. destruct op; simpl.
  - now apply registered_addPoint.
  - now apply registered_removeLastMeasurement.
  - repeat split; try constructor. intros y [].
Qed.

Lemma registered_run (ops : list Op) (h : MeasurementHelper) :
  registered h -> registered (run ops h).
Proof.
  unfold Measurement.run. revert h.
  induction ops as [|op rest IH]; intros h H; simpl; [assumption|].
  apply IH. now apply registered_step.
Qed.

(** X11: in every state a helper reaches from a new one, the scene is the
    scene it was built on followed by objects of the helper; the objects
    held in [markers] and [lineSegments] are distinct and are exactly those
    children of the scene that the helper made. No operation removes or
    moves a child that was there before, and no marker, line or label stays
    in the scene without being held. *)
Theorem helper_tracks_scene (scene0 : Scene) (n0 : nat) (ops : list Op) :
  allocated_before n0 scene0 ->
  let h := run ops (Measurement.new scene0 n0) in
  (exists owned, scene h = scene0 ++ owned)
  /\ NoDup (map id (markers h ++ lineSegments h))
  /\ (forall o, In o (markers h ++ lineSegments h)
                <-> In o (scene h) /\ n0 <= id o).
Proof.
  intros Hfresh h.
  assert (Hown : owns scene0 n0 h) by (apply owns_run; [assumption | apply owns_new]).
  assert (Hreg : registered h) by (apply registered_run, registered_new).
  destruct Hown as (_ & Hheld & owned & Hsc & _ & _ & Hincl).
  destruct Hreg as (Hnd & _ & Hin).
  split; [now exists owned|]. split; [exact Hnd|].
  intros o. split.
  - intros Ho. split; [now apply Hin|].
    rewrite Forall_forall in Hheld. now apply Hheld.
  - intros (Ho & Hid). rewrite Hsc in Ho. apply in_app_or in Ho.
    destruct Ho as [Ho | Ho]; [|now apply Hincl].
    unfold allocated_before in Hfresh. rewrite Forall_forall in Hfresh.
    specialize (Hfresh o Ho). lia.
Qed.

End MeasurementRuns.

(** ** The page over sequences of events *)

Section PageFacts.

Import THREE Measurement.

Variables XRSpace XRHitTestSource Exception Matrix4 Quaternion : Type.
Variable fromArray : list float -> Matrix4.
Variable setFromMatrixPosition : Matrix4 -> Vector3.
Variable setFromRotationMatrix : Matrix4 -> Quaternion.
Variable numberToString : float -> string.

Local Notation Page := (App.Page XRHitTestSource Matrix4 Quaternion).
Local Notation Frame := (HitTest.XRFrame XRSpace XRHitTestSource Exception).
Local Notation PageEvents := (PageEvent XRSpace XRHitTestSource Exception).
Local Notation onSelect := (@App.onSelect XRHitTestSource Matrix4 Quaternion numberToString).
Local Notation page_step :=
  (@pageStep XRSpace XRHitTestSource Exception Matrix4 Quaternion
     fromArray setFromMatrixPosition setFromRotationMatrix numberToString).
Local Notation page_run :=
  (@pageRun XRSpace XRHitTestSource Exception Matrix4 Quaternion
     fromArray setFromMatrixPosition setFromRotationMatrix numberToString).
Local Notation addPoint := (Measurement.addPoint numberToString).
Local Notation run := (Measurement.run numberToString).
Local Notation pageInvariant := (@pageInvariant XRHitTestSource Matrix4 Quaternion numberToString).

Lemma addPoint_count (position : Vector3) (h : MeasurementHelper) :
  fst (addPoint position h) = S (List.length (points h))
  /\ points (snd (addPoint position h)) = points h ++ [position].
Proof.
  rewrite addPoint_unfold.
  destruct (points h) as [|previous front _] using rev_ind.
  - split; reflexivity.
  - rewrite rev_app_distr. split; reflexivity.
Qed.

Lemma pageInvariant_step (scene0 : Scene) (n0 : nat) (page : Page) (event : PageEvents) :
  pageInvariant scene0 n0 page -> pageInvariant scene0 n0 (page_step page event).
Proof.
  intros (Htwo & Hone & ops & Hops & Hrun).
  assert (Hsnoc : forall op, op <> RemoveLastMeasurement ->
    exists ops', Forall (fun op => op <> RemoveLastMeasurement) ops'
      /\ Measurement.step numberToString (App.measurementHelper page) op
         = run ops' (Measurement.new scene0 n0)).
  { intros op Hop. exists (ops ++ [op]). split.
    - apply Forall_app. split; [assumption | now constructor].
    - unfold Measurement.run in *. now rewrite fold_left_app, <- Hrun. }
  destruct event as [| | |frame space]; cbn [pageStep].
  - unfold App.startMeasuring, pageInvariant.
    cbn [App.measuring App.measurementHelper clear points List.length].
    repeat split; try lia. apply (Hsnoc Clear). discriminate.
  - unfold App.resetMeasuring, pageInvariant.
    cbn [App.measuring App.measurementHelper clear points List.length].
    repeat split; try lia. apply (Hsnoc Clear). discriminate.
  - unfold App.onSelect.
    destruct (App.measuring page) eqn:Hm; cbn [negb];
      [|unfold pageInvariant; rewrite Hm; repeat split; eauto; discriminate].
    destruct (HitTest.hitResults (App.hitTestManager page)) as [|hit rest];
      [unfold pageInvariant; rewrite Hm; repeat split; eauto|].
    specialize (Hone eq_refl).
    destruct (addPoint_count (HitTest.position hit) (App.measurementHelper page))
      as (Hfst & Hpoints).
    pose proof (Hsnoc (AddPoint (HitTest.position hit))) as Hadd.
    cbn [Measurement.step] in Hadd.
    destruct (addPoint (HitTest.position hit) (App.measurementHelper page))
      as [pointCount helper]. cbn [fst snd] in *. subst pointCount.
    destruct (S (List.length (points (App.measurementHelper page))) =? 2) eqn:Hcount;
      unfold pageInvariant; cbn [App.measuring App.measurementHelper];
      rewrite Hpoints, length_app; cbn [List.length].
    + repeat split; try lia; try discriminate. apply Hadd. discriminate.
    + apply Nat.eqb_neq in Hcount.
      repeat split; try lia. apply Hadd. discriminate.
  - unfold render. destruct frame as [frame|]; cbn [snd];
      unfold pageInvariant; cbn [App.measuring App.measurementHelper];
      repeat split; eauto.
Qed.

Lemma pageInvariant_run
    (manager : HitTest.HitTestManager XRHitTestSource Matrix4 Quaternion)
    (scene0 : Scene) (n0 : nat) (readout : string) (caption : App.Caption)
    (disabled : bool) (events : list PageEvents) :
  pageInvariant scene0 n0
    (page_run events (initialPage manager scene0 n0 readout caption disabled)).
Proof.
  unfold pageRun.
  assert (H0 : pageInvariant scene0 n0
                 (initialPage manager scene0 n0 readout caption disabled)).
  { unfold pageInvariant, initialPage. simpl. repeat split; try lia.
    exists []. split; [constructor | reflexivity]. }
  revert H0. generalize (initialPage manager scene0 n0 readout caption disabled).
  induction events as [|event rest IH]; intros page0 H0; simpl; [assumption|].
  apply IH. now apply pageInvariant_step.
Qed.

(** X12: whatever the order of button presses, selects and frames, the
    page holds at most two points, at most one while a measurement is under
    way, and it never undoes: its helper is always one that [addPoint] and
    [clear] alone reach, so [len(segments) == max(0, len(points) - 1)] holds
    in every state of the page. *)
Theorem page_holds_two_points
    (manager : HitTest.HitTestManager XRHitTestSource Matrix4 Quaternion)
    (scene0 : Scene) (n0 : nat) (readout : string) (caption : App.Caption)
    (disabled : bool) (events : list PageEvents) :
  let page := page_run events
                (initialPage manager scene0 n0 readout caption disabled) in
  List.length (points (App.measurementHelper page)) <= 2
  /\ (App.measuring page = true ->
      List.length (points (App.measurementHelper page)) <= 1)
  /\ segments_invariant (App.measurementHelper page)
  /\ exists ops,
       Forall (fun op => op <> RemoveLastMeasurement) ops
       /\ App.measurementHelper page = run ops (Measurement.new scene0 n0).
Proof.
  intros page.
  assert (Hinv : pageInvariant scene0 n0 page) by apply pageInvariant_run.
  destruct Hinv as (Htwo & Hone & ops & Hops & Hrun).
  repeat split; try assumption.
  - rewrite Hrun. apply segments_invariant_without_undo; [assumption | reflexivity].
  - now exists ops.
Qed.

(** A select while measuring, with a hit, on a helper without points. *)
Lemma onSelect_first (page : Page)
    (hit : HitTest.HitResult Matrix4 Quaternion)
    (rest : list (HitTest.HitResult Matrix4 Quaternion)) :
  App.measuring page = true ->
  HitTest.hitResults (App.hitTestManager page) = hit :: rest ->
  points (App.measurementHelper page) = [] ->
  onSelect page
  = App.mkPage true (App.hitTestManager page)
      (snd (addPoint (HitTest.position hit) (App.measurementHelper page)))
      (App.distanceValue page) (App.measureButtonText page)
      (App.measureButtonDisabled page).
Proof.
  intros Hon Hhit Hp. unfold App.onSelect. rewrite Hon, Hhit. cbn [negb].
  rewrite addPoint_unfold, Hp. reflexivity.
Qed.

(** A select while measuring, with a hit, on a helper with one point. *)
Lemma onSelect_second (page : Page)
    (hit : HitTest.HitResult Matrix4 Quaternion)
    (rest : list (HitTest.HitResult Matrix4 Quaternion)) (p : Vector3) :
  App.measuring page = true ->
  HitTest.hitResults (App.hitTestManager page) = hit :: rest ->
  points (App.measurementHelper page) = [p] ->
  onSelect page
  = App.mkPage false (App.hitTestManager page)
      (snd (addPoint (HitTest.position hit) (App.measurementHelper page)))
      (JSNumber.toFixed numberToString 2 (distanceTo p (HitTest.position hit) * 100))
      App.MeasureAgain false.
Proof.
  intros Hon Hhit Hp. unfold App.onSelect. rewrite Hon, Hhit. cbn [negb].
  rewrite addPoint_unfold, Hp. reflexivity.
Qed.

Lemma addPoint_second (position p : Vector3) (h : MeasurementHelper) :
  points h = [p] ->
  points (snd (addPoint position h)) = [p; position]
  /\ lineSegments (snd (addPoint position h))
     = lineSegments h ++ [mkObject3D (S (object3DId h)) (Line p position)]
  /\ lastLabel (snd (addPoint position h))
     = Some ((JSNumber.toFixed numberToString 1 (distanceTo p position * 100) ++ " cm")%string,
             labelPosition p position).
Proof.
  intros Hp. rewrite addPoint_unfold, Hp. cbn [rev app snd points lineSegments].
  unfold lastLabel. cbn [markers]. change (?ms ++ [?a; ?b]) with (ms ++ [a] ++ [b]).
  rewrite app_assoc, pop_snoc. repeat split.
Qed.

(** X13: the select that places the second point ends the measurement: the
    readout shows the distance of the two points times 100 with two
    decimals, the label of the segment shows the same number with one
    decimal, [measuring] is reset and the button is enabled again. *)
Theorem onSelect_completes (page : Page)
    (hit : HitTest.HitResult Matrix4 Quaternion)
    (rest : list (HitTest.HitResult Matrix4 Quaternion)) (p : Vector3) :
  App.measuring page = true ->
  HitTest.hitResults (App.hitTestManager page) = hit :: rest ->
  points (App.measurementHelper page) = [p] ->
  let q := HitTest.position hit in
  let page' := onSelect page in
  App.measuring page' = false
  /\ points (App.measurementHelper page') = [p; q]
  /\ App.distanceValue page' = JSNumber.toFixed numberToString 2 (distanceTo p q * 100)
  /\ lastLabel (App.measurementHelper page')
     = Some ((JSNumber.toFixed numberToString 1 (distanceTo p q * 100) ++ " cm")%string,
             labelPosition p q)
  /\ App.measureButtonText page' = App.MeasureAgain
  /\ App.measureButtonDisabled page' = false.
Proof.
  intros Hon Hhit Hp q page'. subst page' q.
  rewrite (onSelect_second page Hon Hhit Hp).
  destruct (addPoint_second (HitTest.position hit) (App.measurementHelper page) Hp)
    as (Hpoints & _ & Hlabel).
  cbn [App.measuring App.measurementHelper App.distanceValue
       App.measureButtonText App.measureButtonDisabled].
  repeat split; assumption.
Qed.

(** A rendered frame whose first hit has a pose leaves that one result in
    the manager and the rest of the page alone. *)
Lemma render_hit (frame : Frame) (referenceSpace : XRSpace) (page : Page)
    (source : XRHitTestSource)
    (hit : HitTest.XRHitTestResult XRSpace Exception)
    (rest : list (HitTest.XRHitTestResult XRSpace Exception))
    (pose : HitTest.XRPose) :
  HitTest.hitTestSource (App.hitTestManager page) = Some source ->
  HitTest.frame_getHitTestResults frame source = HitTest.Normal (hit :: rest) ->
  HitTest.getPose hit referenceSpace = HitTest.Normal (Some pose) ->
  let m := fromArray (HitTest.transform_matrix pose) in
  render fromArray setFromMatrixPosition setFromRotationMatrix
    (Some frame) referenceSpace page
  = (HitTest.Normal tt,
     App.mkPage (App.measuring page)
       (HitTest.mkHitTestManager (Some source)
          (HitTest.hitTestSourceRequested (App.hitTestManager page)) m
          [HitTest.mkHitResult (setFromMatrixPosition m) (setFromRotationMatrix m) m])
       (App.measurementHelper page) (App.distanceValue page)
       (App.measureButtonText page) (App.measureButtonDisabled page)).
Proof.
  intros Hsource Hhits Hpose m. unfold render, HitTest.getHitTestResults,
    HitTest.bind, HitTest.this, HitTest.ret, HitTest.await, HitTest.assign.
  cbn [fst snd HitTest.hitTestSource HitTest.set_hitResults].
  rewrite Hsource, Hhits. cbn [fst snd]. rewrite Hpose.
  unfold HitTest.set_hitResults, HitTest.set_hitMatrix.
  cbn [fst snd HitTest.hitTestSource HitTest.hitTestSourceRequested HitTest.hitMatrix
       HitTest.hitResults app].
  rewrite Hsource. reflexivity.
Qed.

(** X14: a whole measurement. From any page whose manager holds a source:
    the measure button, a frame with a hit, a select, another frame with a
    hit and another select leave the two hit positions as the points, in
    that order, one line segment between them, the readout at their
    distance times 100 with two decimals, and the measurement ended. *)
Theorem measurement_of_two_hits (page : Page) (referenceSpace : XRSpace)
    (source : XRHitTestSource) (frame1 frame2 : Frame)
    (hit1 hit2 : HitTest.XRHitTestResult XRSpace Exception)
    (rest1 rest2 : list (HitTest.XRHitTestResult XRSpace Exception))
    (pose1 pose2 : HitTest.XRPose) :
  HitTest.hitTestSource (App.hitTestManager page) = Some source ->
  HitTest.frame_getHitTestResults frame1 source = HitTest.Normal (hit1 :: rest1) ->
  HitTest.getPose hit1 referenceSpace = HitTest.Normal (Some pose1) ->
  HitTest.frame_getHitTestResults frame2 source = HitTest.Normal (hit2 :: rest2) ->
  HitTest.getPose hit2 referenceSpace = HitTest.Normal (Some pose2) ->
  let p := setFromMatrixPosition (fromArray (HitTest.transform_matrix pose1)) in
  let q := setFromMatrixPosition (fromArray (HitTest.transform_matrix pose2)) in
  let page' :=
    page_run [StartMeasuring XRSpace XRHitTestSource Exception;
              Render (Some frame1) referenceSpace;
              Select XRSpace XRHitTestSource Exception;
              Render (Some frame2) referenceSpace;
              Select XRSpace XRHitTestSource Exception] page in
  points (App.measurementHelper page') = [p; q]
  /\ (exists id, lineSegments (App.measurementHelper page') = [mkObject3D id (Line p q)])
  /\ App.distanceValue page' = JSNumber.toFixed numberToString 2 (distanceTo p q * 100)
  /\ lastLabel (App.measurementHelper page')
     = Some ((JSNumber.toFixed numberToString 1 (distanceTo p q * 100) ++ " cm")%string,
             labelPosition p q)
  /\ App.measuring page' = false.
Proof.
  intros Hsource Hhits1 Hpose1 Hhits2 Hpose2 p q page'. subst page'.
  unfold pageRun. cbn [fold_left pageStep].
  pose proof (render_hit frame1 referenceSpace (App.startMeasuring page)
                Hsource Hhits1 Hpose1) as Hrender1.
  cbv zeta in Hrender1. rewrite Hrender1. clear Hrender1. cbn [snd].
  match goal with |- context [onSelect ?pg] =>
    rewrite (onSelect_first pg (hit := HitTest.mkHitResult p _ _) (rest := []))
      by reflexivity
  end.
  cbn [App.startMeasuring App.measuring App.hitTestManager App.measurementHelper
       App.distanceValue App.measureButtonText App.measureButtonDisabled
       HitTest.position HitTest.hitTestSourceRequested].
  match goal with |- context [render _ _ _ (Some frame2) referenceSpace ?pg] =>
    pose proof (render_hit frame2 referenceSpace pg (source := source)
                  eq_refl Hhits2 Hpose2) as Hrender2
  end.
  cbv zeta in Hrender2. rewrite Hrender2. clear Hrender2. cbn [snd].
  cbn [App.measuring App.hitTestManager App.measurementHelper
       App.distanceValue App.measureButtonText App.measureButtonDisabled
       HitTest.hitTestSourceRequested].
  assert (Hp : points (snd (addPoint p (clear (App.measurementHelper page)))) = [p])
    by (rewrite addPoint_unfold; reflexivity).
  match goal with |- context [onSelect ?pg] =>
    rewrite (onSelect_second pg (hit := HitTest.mkHitResult q _ _) (rest := [])
               (p := p)) by (try reflexivity; exact Hp)
  end.
  cbn [App.measuring App.hitTestManager App.measurementHelper
       App.distanceValue HitTest.position].
  destruct (addPoint_second q (snd (addPoint p (clear (App.measurementHelper page)))) Hp)
    as (Hpoints & Hlines & Hlabel).
  repeat split; try assumption.
  rewrite Hlines. rewrite addPoint_unfold. cbn [clear points rev snd lineSegments app].
  eexists. reflexivity.
Qed.

(** X20: the measure and reset buttons leave no trace of a measurement:
    in whatever state the page is, each of them empties the helper and takes
    its markers, line and label out of the scene, which is again the scene
    the helper was built on; reset also puts the readout back to 0.00. *)
Theorem buttons_clear_scene
    (manager : HitTest.HitTestManager XRHitTestSource Matrix4 Quaternion)
    (scene0 : Scene) (n0 : nat) (readout : string) (caption : App.Caption)
    (disabled : bool) (events : list PageEvents) :
  allocated_before n0 scene0 ->
  let page := page_run events
                (initialPage manager scene0 n0 readout caption disabled) in
  let cleared := mkMeasurementHelper scene0 [] [] []
                   (object3DId (App.measurementHelper page)) in
  (App.measurementHelper (App.resetMeasuring page) = cleared
   /\ App.distanceValue (App.resetMeasuring page) = "0.00"%string
   /\ App.measuring (App.resetMeasuring page) = false)
  /\ (App.measurementHelper (App.startMeasuring page) = cleared
      /\ App.distanceValue (App.startMeasuring page) = App.distanceValue page
      /\ App.measuring (App.startMeasuring page) = true).
Proof.
  intros Hfresh page cleared.
  destruct (pageInvariant_run manager scene0 n0 readout caption disabled events)
    as (_ & _ & ops & _ & Hrun).
  fold page in Hrun.
  assert (Hown : owns scene0 n0 (App.measurementHelper page)).
  { rewrite Hrun. apply owns_run; [assumption | apply owns_new]. }
  unfold App.resetMeasuring, App.startMeasuring.
  cbn [App.measurementHelper App.distanceValue App.measuring].
  rewrite (owns_clear Hfresh Hown). repeat split.
Qed.

Lemma no_source_step (page : Page) (event : PageEvents) :
  HitTest.hitTestSource (App.hitTestManager page) = None ->
  HitTest.hitResults (App.hitTestManager page) = [] ->
  points (App.measurementHelper page) = [] ->
  HitTest.hitTestSource (App.hitTestManager (page_step page event)) = None
  /\ HitTest.hitResults (App.hitTestManager (page_step page event)) = []
  /\ points (App.measurementHelper (page_step page event)) = [].
Proof.
  intros Hsource Hresults Hpoints.
  destruct event as [| | |[frame|] space]; cbn [pageStep].
  - repeat split; assumption.
  - repeat split; assumption.
  - unfold App.onSelect. rewrite Hresults.
    destruct (App.measuring page); repeat split; assumption.
  - unfold render, HitTest.getHitTestResults, HitTest.bind, HitTest.this,
      HitTest.ret, HitTest.await, HitTest.assign.
    cbn [fst snd HitTest.hitTestSource HitTest.set_hitResults]. rewrite Hsource.
    cbn [fst snd App.hitTestManager App.measurementHelper HitTest.hitTestSource
         HitTest.hitResults].
    repeat split; assumption.
  - repeat split; assumption.
Qed.

(** X15: without a source and without a cached result no point is ever
    placed: whatever the buttons, selects and frames, a page whose manager
    holds no source keeps a helper without points. *)
Theorem no_source_no_points (page : Page) (events : list PageEvents) :
  HitTest.hitTestSource (App.hitTestManager page) = None ->
  HitTest.hitResults (App.hitTestManager page) = [] ->
  points (App.measurementHelper page) = [] ->
  let page' := page_run events page in
  points (App.measurementHelper page') = []
  /\ HitTest.hitTestSource (App.hitTestManager page') = None
  /\ HitTest.hitResults (App.hitTestManager page') = [].
Proof.
  intros Hsource Hresults Hpoints page'. subst page'. unfold pageRun.
  revert page Hsource Hresults Hpoints.
  induction events as [|event rest IH]; intros page Hsource Hresults Hpoints;
    cbn [fold_left]; [auto|].
  destruct (no_source_step page event Hsource Hresults Hpoints) as (H1 & H2 & H3).
  now apply IH.
Qed.

End PageFacts.

(** ** Starting and ending the session *)

Section ShellFacts.

Import HitTest.

Variables XRSpace XRHitTestSource Exception Matrix4 Quaternion : Type.

Local Notation Shell := (Shell XRSpace XRHitTestSource Exception Matrix4 Quaternion).
Local Notation Platform := (Platform XRSpace XRHitTestSource Exception).
Local Notation start := (@startAR XRSpace XRHitTestSource Exception Matrix4 Quaternion).
Local Notation sessionEnd :=
  (@onSessionEnd XRSpace XRHitTestSource Exception Matrix4 Quaternion).

(** X16: when the browser refuses the session, or the reference space or
    [setSession] fails, [startAR] still settles normally: it shows the
    message for unsupported devices and disables the start button, and it
    leaves the page, the manager, the other buttons and the animation loop
    as they were, without having asked for a hit-test source. *)
Theorem startAR_failure (platform : Platform) (shell : Shell) :
  ((exists e, requestSession platform = Throw e)
   \/ (exists e, getReferenceSpace platform = Throw e)
   \/ (exists e, setSession platform = Throw e)) ->
  let r := start platform shell in
  fst r = Normal tt
  /\ unsupportedHidden (snd r) = false
  /\ startARDisabled (snd r) = true
  /\ page (snd r) = page shell
  /\ managerEvents (snd r) = managerEvents shell
  /\ resetDisabled (snd r) = resetDisabled shell
  /\ animationLoop (snd r) = animationLoop shell
  /\ endListeners (snd r) = endListeners shell
  /\ List.length (startErrors (snd r)) = S (List.length (startErrors shell)).
Proof.
  intros Hfail r. subst r. unfold startAR.
  destruct (requestSession platform) as [session|e1];
    [|cbn; rewrite length_app; simpl; repeat split; lia].
  destruct (getReferenceSpace platform) as [space|e2];
    [|cbn; rewrite length_app; simpl; repeat split; lia].
  destruct (setSession platform) as [[]|e3];
    [|cbn; rewrite length_app; simpl; repeat split; lia].
  destruct Hfail as [(e & H) | [(e & H) | (e & H)]]; discriminate H.
Qed.

(** X17: once the browser grants the session and the renderer takes it,
    [startAR] enables the measure and reset buttons, disables the start
    button and starts the animation loop whatever became of the hit-test
    request: the manager is as [requestHitTestSource] left it, with or
    without a source, and the message for unsupported devices is not
    touched. *)
Theorem startAR_enables_measuring (platform : Platform) (shell : Shell)
    (session : XRSession XRSpace XRHitTestSource Exception) (space : XRSpace) :
  requestSession platform = Normal session ->
  getReferenceSpace platform = Normal space ->
  setSession platform = Normal tt ->
  let r := start platform shell in
  let requested :=
    requestHitTestSource session space
      (App.hitTestManager (page shell), managerEvents shell) in
  fst r = Normal tt
  /\ App.measureButtonDisabled (page (snd r)) = false
  /\ resetDisabled (snd r) = false
  /\ startARDisabled (snd r) = true
  /\ animationLoop (snd r) = true
  /\ endListeners (snd r) = S (endListeners shell)
  /\ unsupportedHidden (snd r) = unsupportedHidden shell
  /\ referenceSpace (snd r) = Some space
  /\ (App.hitTestManager (page (snd r)), managerEvents (snd r)) = snd requested
  /\ App.measurementHelper (page (snd r)) = App.measurementHelper (page shell)
  /\ App.measuring (page (snd r)) = App.measuring (page shell)
  /\ (supportsHitTest session = false ->
      App.hitTestManager (page (snd r)) = App.hitTestManager (page shell)).
Proof.
  intros Hsession Hspace Hset r requested. subst r requested. unfold startAR.
  rewrite Hsession, Hspace, Hset.
  cbn [page managerEvents referenceSpace startARDisabled resetDisabled
       unsupportedHidden endListeners animationLoop startErrors].
  destruct (request_cases (Matrix4 := Matrix4) (Quaternion := Quaternion)
              session space (App.hitTestManager (page shell)) (managerEvents shell))
    as (m' & events' & Hreq & Hcases).
  rewrite Hreq.
  cbn [fst snd page managerEvents referenceSpace startARDisabled resetDisabled
       unsupportedHidden endListeners animationLoop startErrors
       App.measureButtonDisabled App.hitTestManager App.measurementHelper
       App.measuring].
  repeat split.
  intros Hcap. revert Hreq.
  unfold requestHitTestSource, tryCatch, bind, this, ret, emit, await, assign.
  cbn [fst snd]. rewrite Hcap. cbn [negb].
  destruct (hitTestSourceRequested (App.hitTestManager (page shell)));
    cbn [fst snd]; congruence.
Qed.


End ShellFacts.

(** ** The plane detector *)

Section PlaneFacts.

Variable Quaternion : Type.
Variable rotateX : Quaternion -> float -> Quaternion.

Local Notation Detector := (PlaneDetector Quaternion).
Local Notation Marker := (PlaneMarker Quaternion).
Local Notation plane_run := (@planeRun Quaternion rotateX).
Local Notation plane_step := (@planeStep Quaternion rotateX).

Lemma removeChild_first (scene0 : list (Child Quaternion)) (marker : Marker)
    (rest : list (Child Quaternion)) :
  Forall (fun child => child_id child <> plane_id marker) scene0 ->
  removeChild marker (scene0 ++ PlaneMesh marker :: rest) = scene0 ++ rest.
Proof.
  induction 1 as [|child scene0 Hne _ IH]; simpl.
  - now rewrite Nat.eqb_refl.
  - apply Nat.eqb_neq in Hne. now rewrite Hne, IH.
Qed.

Lemma removeChild_each (scene0 : list (Child Quaternion)) (n0 : nat)
    (markers : list Marker) :
  Forall (fun child => child_id child < n0) scene0 ->
  Forall (fun marker => n0 <= plane_id marker) markers ->
  fold_left (fun scene marker => removeChild marker scene) markers
    (scene0 ++ map (@PlaneMesh Quaternion) markers)
  = scene0.
Proof.
  intros Hscene. induction 1 as [|marker rest Hid _ IH]; simpl.
  - apply app_nil_r.
  - rewrite removeChild_first; [exact IH|].
    eapply Forall_impl; [|exact Hscene]. simpl. intros. lia.
Qed.

(** The scene is the one the detector was built on, followed by its
    markers, all of them allocated by the detector. *)
Lemma plane_scene_shape (scene0 : list (Child Quaternion)) (n0 : nat)
    (ops : list (PlaneOp Quaternion)) (d : Detector) :
  Forall (fun child => child_id child < n0) scene0 ->
  plane_scene d = scene0 ++ map (@PlaneMesh Quaternion) (planeMarkers d) ->
  Forall (fun marker => n0 <= plane_id marker) (planeMarkers d) ->
  n0 <= plane_object3DId d ->
  let d' := plane_run ops d in
  plane_scene d' = scene0 ++ map (@PlaneMesh Quaternion) (planeMarkers d')
  /\ Forall (fun marker => n0 <= plane_id marker) (planeMarkers d')
  /\ n0 <= plane_object3DId d'.
Proof.
  intros Hscene. unfold planeRun. revert d.
  induction ops as [|op rest IH]; intros d Hshape Hids Hnext; cbn [fold_left];
    [auto|].
  apply IH; destruct op as [position rotation size|];
    cbn [planeStep createPlaneMarker clearPlaneMarkers snd plane_scene planeMarkers
         plane_object3DId map].
  - rewrite Hshape, map_app, app_assoc. reflexivity.
  - rewrite Hshape, removeChild_each with (n0 := n0) by assumption.
    now rewrite app_nil_r.
  - apply Forall_app. split; [assumption|]. repeat constructor. exact Hnext.
  - constructor.
  - lia.
  - exact Hnext.
Qed.

(** X19: after any sequence of [createPlaneMarker] and [clearPlaneMarkers]
    the scene is the scene the detector was built on followed by the
    registered markers in the order they were made; [clearPlaneMarkers]
    takes out exactly those, leaves the scene it was built on in place, and
    a second call changes nothing. *)
Theorem clearPlaneMarkers_restores (scene0 : list (Child Quaternion)) (n0 : nat)
    (ops : list (PlaneOp Quaternion)) :
  Forall (fun child => child_id child < n0) scene0 ->
  let d := plane_run ops (newPlaneDetector scene0 n0) in
  plane_scene d = scene0 ++ map (@PlaneMesh Quaternion) (planeMarkers d)
  /\ plane_scene (clearPlaneMarkers d) = scene0
  /\ planeMarkers (clearPlaneMarkers d) = []
  /\ clearPlaneMarkers (clearPlaneMarkers d) = clearPlaneMarkers d.
Proof.
  intros Hscene d.
  destruct (plane_scene_shape ops (newPlaneDetector scene0 n0) Hscene)
    as (Hshape & Hids & _).
  - simpl. now rewrite app_nil_r.
  - constructor.
  - simpl. lia.
  - fold d in Hshape, Hids. split; [exact Hshape|].
    unfold clearPlaneMarkers. cbn [plane_scene planeMarkers plane_object3DId fold_left].
    rewrite Hshape at 1. rewrite removeChild_each with (n0 := n0) by assumption.
    repeat split.
Qed.

End PlaneFacts.

(** ** More instances *)

Lemma getHitTestResults_propagates_witness :
  fst (HitTest.getHitTestResults exampleFromArray examplePosition exampleRotation
         throwingFrame localSpace (readyManager, []))
  = HitTest.Throw "InvalidStateError"%string.
Proof.
  pose proof (@getHitTestResults_propagates string nat string (list float) unit
                exampleFromArray examplePosition exampleRotation
                throwingFrame localSpace (readyManager, []) 7
                "InvalidStateError"%string eq_refl (or_introl eq_refl)) as H.
  exact (f_equal fst H).
Defined.


Lemma undo_first_point_witness :
  allocated_before 1 pageScene
  /\ Measurement.removeLastMeasurement
       (snd (Measurement.addPoint unusedFallback pointA (Measurement.new pageScene 1)))
     = Measurement.mkMeasurementHelper pageScene [] [] [] 2.
Proof.
  assert (H : allocated_before 1 pageScene) by (repeat constructor).
  split; [exact H|].
  exact (@undo_first_point unusedFallback pointA (Measurement.new pageScene 1)
           eq_refl eq_refl H).
Defined.

Lemma helper_tracks_scene_witness :
  allocated_before 1 pageScene
  /\ NoDup (map THREE.id
       (Measurement.markers
          (Measurement.run unusedFallback
             [Measurement.AddPoint pointA; Measurement.AddPoint pointB;
              Measurement.RemoveLastMeasurement; Measurement.AddPoint pointC]
             (Measurement.new pageScene 1))
        ++ Measurement.lineSegments
          (Measurement.run unusedFallback
             [Measurement.AddPoint pointA; Measurement.AddPoint pointB;
              Measurement.RemoveLastMeasurement; Measurement.AddPoint pointC]
             (Measurement.new pageScene 1)))).
Proof.
  assert (H : allocated_before 1 pageScene) by (repeat constructor).
  split; [exact H|].
  exact (proj1 (proj2 (@helper_tracks_scene unusedFallback pageScene 1
    [Measurement.AddPoint pointA; Measurement.AddPoint pointB;
     Measurement.RemoveLastMeasurement; Measurement.AddPoint pointC] H))).
Defined.

Lemma onSelect_completes_witness :
  App.distanceValue (App.onSelect unusedFallback halfwayPage) = "100.00"%string
  /\ App.measuring (App.onSelect unusedFallback halfwayPage) = false.
Proof.
  pose proof (@onSelect_completes nat (list float) unit unusedFallback halfwayPage
                (HitTest.mkHitResult pointB tt []) [] pointA
                eq_refl eq_refl eq_refl) as H.
  cbv zeta in H. split.
  - exact (proj1 (proj2 (proj2 H))).
  - exact (proj1 H).
Defined.

Lemma measurement_of_two_hits_witness :
  Measurement.points
    (App.measurementHelper
       (pageRun exampleFromArray examplePosition exampleRotation unusedFallback
          [StartMeasuring string nat string; Render (Some hitFrame) localSpace;
           Select string nat string; Render (Some secondFrame) localSpace;
           Select string nat string]
          readyPage))
  = [pointA; pointB].
Proof.
  exact (proj1 (@measurement_of_two_hits string nat string (list float) unit
    exampleFromArray examplePosition exampleRotation unusedFallback
    readyPage localSpace 7 hitFrame secondFrame _ _ [] [] examplePose secondPose
    eq_refl eq_refl eq_refl eq_refl eq_refl)).
Defined.

Lemma no_source_no_points_witness :
  Measurement.points
    (App.measurementHelper
       (pageRun exampleFromArray examplePosition exampleRotation unusedFallback
          [StartMeasuring string nat string; Render (Some hitFrame) localSpace;
           Select string nat string]
          idlePage))
  = [].
Proof.
  exact (proj1 (@no_source_no_points string nat string (list float) unit
    exampleFromArray examplePosition exampleRotation unusedFallback idlePage
    [StartMeasuring string nat string; Render (Some hitFrame) localSpace;
     Select string nat string]
    eq_refl eq_refl eq_refl)).
Defined.

Lemma startAR_failure_witness :
  unsupportedHidden (snd (startAR refusingPlatform idleShell)) = false
  /\ startARDisabled (snd (startAR refusingPlatform idleShell)) = true.
Proof.
  pose proof (@startAR_failure string nat string (list float) unit
                refusingPlatform idleShell
                (or_introl (ex_intro _ "NotSupportedError"%string eq_refl))) as H.
  cbv zeta in H. split.
  - exact (proj1 (proj2 H)).
  - exact (proj1 (proj2 (proj2 H))).
Defined.

Lemma startAR_enables_measuring_witness :
  App.measureButtonDisabled (page (snd (startAR grantingPlatform idleShell))) = false
  /\ animationLoop (snd (startAR grantingPlatform idleShell)) = true.
Proof.
  pose proof (@startAR_enables_measuring string nat string (list float) unit
                grantingPlatform idleShell answeringSession localSpace
                eq_refl eq_refl eq_refl) as H.
  cbv zeta in H. split.
  - exact (proj1 (proj2 H)).
  - exact (proj1 (proj2 (proj2 (proj2 (proj2 H))))).
Defined.


Lemma clearPlaneMarkers_restores_witness :
  Forall (fun child => child_id child < 1) planeScene
  /\ plane_scene
       (clearPlaneMarkers
          (planeRun exampleRotateX
             [CreatePlaneMarker pointA tt None;
              CreatePlaneMarker pointB tt (Some (mkSize 0.2 0.2));
              ClearPlaneMarkers unit;
              CreatePlaneMarker pointC tt None]
             (newPlaneDetector planeScene 1)))
     = planeScene.
Proof.
  assert (H : Forall (fun child : Child unit => child_id child < 1) planeScene)
    by (repeat constructor).
  split; [exact H|].
  exact (proj1 (proj2 (@clearPlaneMarkers_restores unit exampleRotateX planeScene 1
    [CreatePlaneMarker pointA tt None;
     CreatePlaneMarker pointB tt (Some (mkSize 0.2 0.2));
     ClearPlaneMarkers unit;
     CreatePlaneMarker pointC tt None] H))).
Defined.

Lemma buttons_clear_scene_witness :
  allocated_before 1 pageScene
  /\ Measurement.scene
       (App.measurementHelper
          (App.resetMeasuring
             (pageRun exampleFromArray examplePosition exampleRotation unusedFallback
                [StartMeasuring string nat string; Render (Some hitFrame) localSpace;
                 Select string nat string; Render (Some secondFrame) localSpace;
                 Select string nat string]
                readyPage)))
     = pageScene.
Proof.
  assert (H : allocated_before 1 pageScene) by (repeat constructor).
  split; [exact H|].
  pose proof (@buttons_clear_scene string nat string (list float) unit
                exampleFromArray examplePosition exampleRotation unusedFallback
                readyManager pageScene 1 "0.00"%string App.Measure false
                [StartMeasuring string nat string; Render (Some hitFrame) localSpace;
                 Select string nat string; Render (Some secondFrame) localSpace;
                 Select string nat string] H) as Hclear.
  cbv zeta in Hclear.
  exact (f_equal Measurement.scene (proj1 (proj1 Hclear))).
Defined.
